(** * The chat-completion external processor of the AI gateway

    A shallow embedding of [internal/extproc/chatcompletion_processor.go]:
    the per-stream processor that parses the OpenAI request, routes it,
    translates request and response, accumulates token usage and emits the
    request costs as dynamic metadata.

    Conventions of the embedding:
    - a Go [string] and a Go [[]byte] are both a [string] (a byte sequence);
    - a Go [uint32] / [uint64] is an [N] with the conversions written out
      ([uint32_of], [add32]);
    - a Go [map[string]string] is a [gmap string string], a missing key
      reads as the empty string ([index]);
    - a Go [(value, error)] return is a [result]; a call that may also
      panic is an [outcome];
    - the processor is a record that is threaded through every method (the
      Go methods have a pointer receiver), and the metric sink and the
      logger are represented by the list of calls made on them. *)

From Stdlib Require Import NArith Ascii.
From stdpp Require Import gmap strings list fin_maps.

Open Scope N_scope.

(** ** Go basics *)

Abbreviation bytes := string (only parsing).

(** [m[k]] on a [map[string]string]: the zero value when [k] is absent. *)
Definition index (m : gmap string string) (k : string) : string :=
  default "" (m !! k).

(** The conversion [uint32(x)] of a wider unsigned integer keeps the low
    32 bits. *)
Definition uint32_of (x : N) : N := x mod 2 ^ 32.

(** [a + b] on [uint32] operands. *)
Definition add32 (a b : N) : N := uint32_of (a + b).

Definition MaxUint32 : N := 2 ^ 32 - 1.

(** Error values.  [ErrNoMatchingRule] is the sentinel [x.ErrNoMatchingRule],
    carrying the message it was declared with in package [x]; [errorString]
    is any other leaf error; [wrapError] is what [fmt.Errorf] builds for a
    format with [%w]: the formatted message and the wrapped error. *)
Inductive error : Type :=
| ErrNoMatchingRule (text : string)
| errorString (s : string)
| wrapError (msg : string) (err : error).

(** The [Error()] method. *)
Definition Error (err : error) : string :=
  match err with
  | ErrNoMatchingRule text => text
  | errorString s => s
  | wrapError msg _ => msg
  end.

(** [fmt.Errorf(prefix + "%w", err)]. *)
Definition Errorf_w (prefix : string) (err : error) : error :=
  wrapError (prefix +:+ Error err) err.

(** [errors.Is(err, x.ErrNoMatchingRule)]: walk the [Unwrap] chain. *)
Fixpoint errors_Is_ErrNoMatchingRule (err : error) : bool :=
  match err with
  | ErrNoMatchingRule _ => true
  | errorString _ => false
  | wrapError _ inner => errors_Is_ErrNoMatchingRule inner
  end.

Inductive result (A : Type) : Type :=
| Ok (a : A)
| Err (e : error).
Arguments Ok {A} a.
Arguments Err {A} e.

(** How a call ends: it returns (a value or an error), or it panics. *)
Inductive outcome (A : Type) : Type :=
| Return (r : result A)
| Panic (v : string).
Arguments Return {A} r.
Arguments Panic {A} v.

(** ** Messages of the external-processing protocol *)

(** [corev3.HeaderValue], [corev3.HeaderValueOption], [corev3.HeaderMap]. *)
Record HeaderValue : Type := mkHeaderValue {
  Key : string;
  RawValue : bytes
}.

Record HeaderValueOption : Type := mkHeaderValueOption {
  Header : HeaderValue
}.

Record HeaderMap : Type := mkHeaderMap {
  Headers : list HeaderValue
}.

(** [extprocv3.HeaderMutation] and [extprocv3.BodyMutation]. *)
Record HeaderMutation : Type := mkHeaderMutation {
  SetHeaders : list HeaderValueOption;
  RemoveHeaders : list string
}.

Inductive BodyMutation : Type :=
| BodyMutation_unset
| BodyMutation_Body (b : bytes)
| BodyMutation_ClearBody (clear : bool).

Record CommonResponse : Type := mkCommonResponse {
  HeaderMutation_ : option HeaderMutation;
  BodyMutation_ : option BodyMutation;
  ClearRouteCache : bool
}.

Record HeadersResponse : Type := mkHeadersResponse {
  HeadersResponse_Response : option CommonResponse
}.

Record BodyResponse : Type := mkBodyResponse {
  BodyResponse_Response : option CommonResponse
}.

(** [typev3.StatusCode]: the numeric HTTP status. *)
Definition StatusCode_NotFound : N := 404.

Record HttpStatus : Type := mkHttpStatus {
  Code : N
}.

Record ImmediateResponse : Type := mkImmediateResponse {
  Status : HttpStatus;
  ImmediateResponse_Body : bytes
}.

(** [extprocv3http.ProcessingMode]; only the response body mode is ever set
    by the processor, the other modes keep their zero value. *)
Inductive BodySendMode : Type :=
| ProcessingMode_NONE
| ProcessingMode_STREAMED
| ProcessingMode_BUFFERED
| ProcessingMode_BUFFERED_PARTIAL.

Record ProcessingMode : Type := mkProcessingMode {
  ResponseBodyMode : BodySendMode
}.

(** [structpb.Value] and [structpb.Struct].  A number is a [float64] in the
    protocol; the processor only ever stores [float64(cost)] for a [uint32]
    [cost], which is exact, so the number is kept as that integer. *)
#[local] Set Warnings "-register-all".
Inductive Value : Type :=
| NumberValue (n : N)
| StructValue (fields : gmap string Value).

Abbreviation Struct := (gmap string Value) (only parsing).

(** The [oneof] of [extprocv3.ProcessingResponse]. *)
Inductive ProcessingResponse_Response : Type :=
| ProcessingResponse_RequestHeaders (r : HeadersResponse)
| ProcessingResponse_RequestBody (r : BodyResponse)
| ProcessingResponse_ResponseHeaders (r : HeadersResponse)
| ProcessingResponse_ResponseBody (r : option BodyResponse)
| ProcessingResponse_ImmediateResponse (r : ImmediateResponse).

Record ProcessingResponse : Type := mkProcessingResponse {
  Response : ProcessingResponse_Response;
  ModeOverride : option ProcessingMode;
  DynamicMetadata : option Struct
}.

(** [extprocv3.HttpBody]. *)
Record HttpBody : Type := mkHttpBody {
  Body : bytes;
  EndOfStream : bool
}.

(** ** The filter configuration ([filterapi]) *)

(** [filterapi.APISchemaName] is a string type with three declared
    constants; any other string is [APISchemaOther]. *)
Inductive APISchemaName : Type :=
| APISchemaOpenAI
| APISchemaAWSBedrock
| APISchemaAzureOpenAI
| APISchemaOther (name : string).

Definition APISchemaName_string (n : APISchemaName) : string :=
  match n with
  | APISchemaOpenAI => "OpenAI"
  | APISchemaAWSBedrock => "AWSBedrock"
  | APISchemaAzureOpenAI => "AzureOpenAI"
  | APISchemaOther name => name
  end.

Record VersionedAPISchema : Type := mkVersionedAPISchema {
  Name : APISchemaName;
  Version : string
}.

(** The verb [%s] applied to a [VersionedAPISchema]. *)
Definition VersionedAPISchema_string (out : VersionedAPISchema) : string :=
  "{" +:+ APISchemaName_string (Name out) +:+ " " +:+ Version out +:+ "}".

(** A [*filterapi.DynamicLoadBalancing] is only ever used as a map key and
    compared with [nil]: it is the address it points to. *)
Abbreviation DynamicLoadBalancingRef := positive (only parsing).

Record Backend : Type := mkBackend {
  Backend_Name : string;
  Schema : VersionedAPISchema;
  DynamicLoadBalancing : option DynamicLoadBalancingRef
}.

Inductive LLMRequestCostType : Type :=
| LLMRequestCostTypeInputToken
| LLMRequestCostTypeOutputToken
| LLMRequestCostTypeTotalToken
| LLMRequestCostTypeCEL
| LLMRequestCostTypeOther (kind : string).

(** [translator.LLMTokenUsage]: three [uint32] counters. *)
Record LLMTokenUsage : Type := mkLLMTokenUsage {
  InputTokens : N;
  OutputTokens : N;
  TotalTokens : N
}.

(** ** The metric sink and the logger

    [x.ChatCompletionMetrics] and [*slog.Logger] are write-only from the
    processor's side; each is the sequence of calls received so far. *)
Inductive MetricCall : Type :=
| StartRequest (headers : gmap string string)
| SetModel (model : string)
| SetBackend (b : Backend)
| RecordRequestCompletion (success : bool)
| RecordTokenUsage (input output total : N)
| RecordTokenLatency (output : N).

Inductive LogRecord : Type :=
| Info_processing_request_body (path model : string)
| Info_selected_backend (backend : string) (schema : VersionedAPISchema)
| Info_setting_request_cost_metadata
    (type : LLMRequestCostType) (cost : N) (metadataKey : string).

(** ** Collaborators declared outside the file

    The router, the load balancers and the auth handlers are interface values
    held by the configuration; they are shared between streams, so each is
    the function its method computes. *)

(** [x.Router]. *)
Record Router : Type := mkRouter {
  Calculate : gmap string string → result Backend
}.

(** [DynamicLoadBalancer]: it is handed the metric sink and may record on
    it. *)
Record DynamicLoadBalancer : Type := mkDynamicLoadBalancer {
  SelectChatCompletionsEndpoint :
    string → list MetricCall →
    result (Backend * list HeaderValueOption) * list MetricCall
}.

(** [backendauth.Handler]: [Do] receives the request-header map and the two
    mutations by reference; it returns its error and what the three hold
    afterwards (the body mutation only matters when the pointer it was given
    is not nil). *)
Record Handler : Type := mkHandler {
  Do : gmap string string → HeaderMutation → option BodyMutation →
       result unit * (gmap string string * HeaderMutation * BodyMutation)
}.

(** Package [openai] and [encoding/json]: the parsed request and its
    decoder. *)
Class OpenAI : Type := {
  ChatCompletionRequest : Type;
  Model : ChatCompletionRequest → string;
  Stream : ChatCompletionRequest → bool;
  json_Unmarshal : bytes → result ChatCompletionRequest
}.

(** [io.Reader], [bytes.NewReader] and [gzip.NewReader]. *)
Class IO : Type := {
  Reader : Type;
  bytes_NewReader : bytes → Reader;
  gzip_NewReader : Reader → result Reader
}.

(** Package [translator]: the interface [OpenAIChatCompletionTranslator] and
    its three constructors.  A translator is owned by one stream and keeps
    state between calls, so every method also returns the translator as it is
    after the call. *)
Class Translators `{OpenAI} `{IO} : Type := {
  OpenAIChatCompletionTranslator : Type;
  RequestBody :
    OpenAIChatCompletionTranslator → ChatCompletionRequest →
    result (option HeaderMutation * option BodyMutation)
    * OpenAIChatCompletionTranslator;
  ResponseHeaders :
    OpenAIChatCompletionTranslator → gmap string string →
    result (option HeaderMutation) * OpenAIChatCompletionTranslator;
  ResponseBody :
    OpenAIChatCompletionTranslator → gmap string string → Reader → bool →
    result (option HeaderMutation * option BodyMutation * LLMTokenUsage)
    * OpenAIChatCompletionTranslator;
  NewChatCompletionOpenAIToOpenAITranslator : OpenAIChatCompletionTranslator;
  NewChatCompletionOpenAIToAWSBedrockTranslator :
    OpenAIChatCompletionTranslator;
  NewChatCompletionOpenAIToAzureOpenAITranslator :
    string → OpenAIChatCompletionTranslator
}.

(** Package [llmcostcel]: compiled programs and their evaluation, which
    yields a [uint64]. *)
Class LLMCostCEL : Type := {
  Program : Type;
  EvaluateProgram : Program → string → string → N → N → N → result N
}.

(** [headersToMap], of this package but of another file. *)
Class HeaderMaps : Type := {
  headersToMap : HeaderMap → gmap string string
}.

(** ** The processor *)

Section Processor.
Context `{Translators} `{LLMCostCEL} `{HeaderMaps}.

(** A request-cost rule of the configuration: the embedded
    [*filterapi.LLMRequestCost] and the compiled program. *)
Record processorConfigRequestCost : Type := mkProcessorConfigRequestCost {
  MetadataKey : string;
  Type_ : LLMRequestCostType;
  celProg : Program
}.

Record processorConfig : Type := mkProcessorConfig {
  schema : VersionedAPISchema;
  modelNameHeaderKey : string;
  selectedBackendHeaderKey : string;
  metadataNamespace : string;
  router : Router;
  dynamicLoadBalancers : gmap positive DynamicLoadBalancer;
  backendAuthHandlers : gmap string Handler;
  requestCosts : list processorConfigRequestCost
}.

(** [chatCompletionProcessor]: the state of one stream. *)
Record chatCompletionProcessor : Type := mkChatCompletionProcessor {
  logger : list LogRecord;
  config : processorConfig;
  requestHeaders : gmap string string;
  responseHeaders : gmap string string;
  responseEncoding : string;
  translator : option OpenAIChatCompletionTranslator;
  costs : LLMTokenUsage;
  metrics : list MetricCall;
  stream : bool;
  dynamicLB : option DynamicLoadBalancingRef
}.

Definition set_logger v (c : chatCompletionProcessor) :=
  mkChatCompletionProcessor v (config c) (requestHeaders c)
    (responseHeaders c) (responseEncoding c) (translator c) (costs c)
    (metrics c) (stream c) (dynamicLB c).
Definition set_requestHeaders v (c : chatCompletionProcessor) :=
  mkChatCompletionProcessor (logger c) (config c) v
    (responseHeaders c) (responseEncoding c) (translator c) (costs c)
    (metrics c) (stream c) (dynamicLB c).
Definition set_responseHeaders v (c : chatCompletionProcessor) :=
  mkChatCompletionProcessor (logger c) (config c) (requestHeaders c)
    v (responseEncoding c) (translator c) (costs c)
    (metrics c) (stream c) (dynamicLB c).
Definition set_responseEncoding v (c : chatCompletionProcessor) :=
  mkChatCompletionProcessor (logger c) (config c) (requestHeaders c)
    (responseHeaders c) v (translator c) (costs c)
    (metrics c) (stream c) (dynamicLB c).
Definition set_translator v (c : chatCompletionProcessor) :=
  mkChatCompletionProcessor (logger c) (config c) (requestHeaders c)
    (responseHeaders c) (responseEncoding c) v (costs c)
    (metrics c) (stream c) (dynamicLB c).
Definition set_costs v (c : chatCompletionProcessor) :=
  mkChatCompletionProcessor (logger c) (config c) (requestHeaders c)
    (responseHeaders c) (responseEncoding c) (translator c) v
    (metrics c) (stream c) (dynamicLB c).
Definition set_metrics v (c : chatCompletionProcessor) :=
  mkChatCompletionProcessor (logger c) (config c) (requestHeaders c)
    (responseHeaders c) (responseEncoding c) (translator c) (costs c)
    v (stream c) (dynamicLB c).
Definition set_stream v (c : chatCompletionProcessor) :=
  mkChatCompletionProcessor (logger c) (config c) (requestHeaders c)
    (responseHeaders c) (responseEncoding c) (translator c) (costs c)
    (metrics c) v (dynamicLB c).
Definition set_dynamicLB v (c : chatCompletionProcessor) :=
  mkChatCompletionProcessor (logger c) (config c) (requestHeaders c)
    (responseHeaders c) (responseEncoding c) (translator c) (costs c)
    (metrics c) (stream c) v.

(** *** Methods as state transformers

    A method body runs on the processor and ends by returning or by
    panicking; what it wrote to the processor before stays written. *)
Definition M (A : Type) : Type :=
  chatCompletionProcessor → outcome A * chatCompletionProcessor.

Definition ret {A} (a : A) : M A := λ c, (Return (Ok a), c).
Definition fail {A} (e : error) : M A := λ c, (Return (Err e), c).
Definition panic {A} (v : string) : M A := λ c, (Panic v, c).
Definition bind {A B} (m : M A) (k : A → M B) : M B :=
  λ c, match m c with
       | (Return (Ok a), c') => k a c'
       | (Return (Err e), c') => (Return (Err e), c')
       | (Panic v, c') => (Panic v, c')
       end.
Definition get : M chatCompletionProcessor := λ c, (Return (Ok c), c).
Definition modify (f : chatCompletionProcessor → chatCompletionProcessor)
  : M unit := λ c, (Return (Ok tt), f c).

Notation "'do' x <- m ; k" := (bind m (λ x, k))
  (at level 10, x name, m at level 100, k at level 200,
   format "'[v' 'do'  x  <-  m ; '/' k ']'").
Notation "'do' ' pat <- m ; k" :=
  (bind m (λ x, match x with pat => k end))
  (at level 10, pat pattern, m at level 100, k at level 200,
   format "'[v' 'do'  ' pat  <-  m ; '/' k ']'").
Notation "m ;; k" := (bind m (λ _, k))
  (at level 100, k at level 200, right associativity,
   format "'[v' m ;; '/' k ']'").

(** [v, err := r; if err != nil { return nil, fmt.Errorf(prefix%w, err) }]. *)
Definition try {A} (prefix : string) (r : result A) : M A :=
  match r with
  | Ok a => ret a
  | Err e => fail (Errorf_w prefix e)
  end.

(** A call on [c.metrics] and a call of [c.logger.Info]. *)
Definition metrics_call (mc : MetricCall) : M unit :=
  modify (λ c, set_metrics (metrics c ++ [mc]) c).
Definition logger_Info (r : LogRecord) : M unit :=
  modify (λ c, set_logger (logger c ++ [r]) c).

(** [defer func() { f(err) }()]: the deferred function sees the named
    result [err] as it is when the body ends; when the body panics no
    return statement has assigned it an error. *)
Definition defer {A} (f : option error → M unit) (body : M A) : M A :=
  λ c, match body c with
       | (Return (Ok a), c') => (Return (Ok a), snd (f None c'))
       | (Return (Err e), c') => (Return (Err e), snd (f (Some e) c'))
       | (Panic v, c') => (Panic v, snd (f None c'))
       end.

(** [if err = m; err != nil { return nil, fmt.Errorf(prefix%w, err) }]. *)
Definition wrapping {A} (prefix : string) (m : M A) : M A :=
  λ c, match m c with
       | (Return (Err e), c') => (Return (Err (Errorf_w prefix e)), c')
       | r => r
       end.

(** *** The factory and the request-headers event *)

Definition ChatCompletionProcessorFactory (ccm : list MetricCall)
    (config : processorConfig) (requestHeaders : gmap string string)
    (logger : list LogRecord) : result chatCompletionProcessor :=
  match Name (schema config) with
  | APISchemaOpenAI =>
      Ok {| logger := logger; config := config;
            requestHeaders := requestHeaders; responseHeaders := ∅;
            responseEncoding := ""; translator := None;
            costs := mkLLMTokenUsage 0 0 0; metrics := ccm;
            stream := false; dynamicLB := None |}
  | n => Err (errorString
                ("unsupported API schema: " +:+ APISchemaName_string n))
  end.

Definition selectTranslator (out : VersionedAPISchema) : M unit :=
  do c <- get;
  match translator c with
  | Some _ => ret tt
  | None =>
      match Name out with
      | APISchemaOpenAI =>
          modify (set_translator
                    (Some NewChatCompletionOpenAIToOpenAITranslator))
      | APISchemaAWSBedrock =>
          modify (set_translator
                    (Some NewChatCompletionOpenAIToAWSBedrockTranslator))
      | APISchemaAzureOpenAI =>
          modify (set_translator
                    (Some (NewChatCompletionOpenAIToAzureOpenAITranslator
                             (Version out))))
      | APISchemaOther _ =>
          fail (errorString ("unsupported API schema: backend="
                             +:+ VersionedAPISchema_string out))
      end
  end.

Definition ProcessRequestHeaders (_ : HeaderMap) : M ProcessingResponse :=
  do c <- get;
  metrics_call (StartRequest (requestHeaders c));;
  ret (mkProcessingResponse
         (ProcessingResponse_RequestHeaders (mkHeadersResponse None))
         None None).

(** *** The request-body event *)

Definition parseOpenAIChatCompletionBody (body : HttpBody)
  : result (string * ChatCompletionRequest) :=
  match json_Unmarshal (Body body) with
  | Err e => Err (Errorf_w "failed to unmarshal body: " e)
  | Ok openAIReq => Ok (Model openAIReq, openAIReq)
  end.

Definition ProcessRequestBody (rawBody : HttpBody) : M ProcessingResponse :=
  defer (λ err, match err with
                | Some _ => metrics_call (RecordRequestCompletion false)
                | None => ret tt
                end)
  (do '(model, body) <- try "failed to parse request body: "
                            (parseOpenAIChatCompletionBody rawBody);
   do c <- get;
   logger_Info
     (Info_processing_request_body (index (requestHeaders c) ":path") model);;
   metrics_call (SetModel model);;
   modify (λ c, set_requestHeaders
                  (<[modelNameHeaderKey (config c) := model]>
                     (requestHeaders c)) c);;
   do c <- get;
   match Calculate (router (config c)) (requestHeaders c) with
   | Err err =>
       if errors_Is_ErrNoMatchingRule err then
         metrics_call (RecordRequestCompletion false);;
         ret (mkProcessingResponse
                (ProcessingResponse_ImmediateResponse
                   (mkImmediateResponse (mkHttpStatus StatusCode_NotFound)
                      (Error err)))
                None None)
       else fail (Errorf_w "failed to calculate route: " err)
   | Ok b =>
       modify (set_dynamicLB (DynamicLoadBalancing b));;
       do '(b, headers, selectedBackendHeaderValue) <-
         match DynamicLoadBalancing b with
         | None => ret (b, [], Backend_Name b)
         | Some lbRef =>
             match dynamicLoadBalancers (config c) !! lbRef with
             | None => panic "BUG: failed to find dynamic load balancer"
             | Some lb =>
                 do c <- get;
                 let '(r, sink) :=
                   SelectChatCompletionsEndpoint lb model (metrics c) in
                 modify (set_metrics sink);;
                 do '(b, headers) <- try "failed to select endpoint: " r;
                 ret (b, headers, "original_destination_cluster")
             end
         end;
       logger_Info (Info_selected_backend (Backend_Name b) (Schema b));;
       metrics_call (SetBackend b);;
       wrapping "failed to select translator: "
         (selectTranslator (Schema b));;
       do c <- get;
       match translator c with
       | None => panic "invalid memory address or nil pointer dereference"
       | Some t =>
           let '(r, t) := RequestBody t body in
           modify (set_translator (Some t));;
           do '(headerMutation, bodyMutation) <-
             try "failed to transform request: " r;
           let headerMutation :=
             default (mkHeaderMutation [] []) headerMutation in
           let headerMutation :=
             mkHeaderMutation
               (SetHeaders headerMutation
                ++ [mkHeaderValueOption
                      (mkHeaderValue (modelNameHeaderKey (config c)) model);
                    mkHeaderValueOption
                      (mkHeaderValue (selectedBackendHeaderKey (config c))
                         selectedBackendHeaderValue)])
               (RemoveHeaders headerMutation) in
           let headerMutation :=
             mkHeaderMutation (SetHeaders headerMutation ++ headers)
               (RemoveHeaders headerMutation) in
           do '(headerMutation, bodyMutation) <-
             match backendAuthHandlers (config c) !! Backend_Name b with
             | Some authHandler =>
                 do c <- get;
                 let '(r, (requestHeaders', headerMutation', bodyMutation')) :=
                   Do authHandler (requestHeaders c) headerMutation
                     bodyMutation in
                 modify (set_requestHeaders requestHeaders');;
                 try "failed to do auth request: " r;;
                 ret (headerMutation',
                      match bodyMutation with
                      | Some _ => Some bodyMutation'
                      | None => None
                      end)
             | None => ret (headerMutation, bodyMutation)
             end;
           let resp :=
             mkProcessingResponse
               (ProcessingResponse_RequestBody
                  (mkBodyResponse
                     (Some (mkCommonResponse (Some headerMutation)
                              bodyMutation true))))
               None None in
           modify (set_stream (Stream body));;
           ret resp
       end
   end).

(** *** The response-headers event *)

Definition ProcessResponseHeaders (headers : HeaderMap)
  : M ProcessingResponse :=
  defer (λ err, match err with
                | Some _ => metrics_call (RecordRequestCompletion false)
                | None => ret tt
                end)
  (modify (set_responseHeaders (headersToMap headers));;
   do c <- get;
   (let enc := index (responseHeaders c) "content-encoding" in
    if String.eqb enc "" then ret tt
    else modify (set_responseEncoding enc));;
   match translator c with
   | None =>
       ret (mkProcessingResponse
              (ProcessingResponse_ResponseHeaders (mkHeadersResponse None))
              None None)
   | Some t =>
       let '(r, t) := ResponseHeaders t (responseHeaders c) in
       modify (set_translator (Some t));;
       do headerMutation <- try "failed to transform response headers: " r;
       let mode :=
         if stream c && String.eqb (index (responseHeaders c) ":status") "200"
         then Some (mkProcessingMode ProcessingMode_STREAMED)
         else None in
       ret (mkProcessingResponse
              (ProcessingResponse_ResponseHeaders
                 (mkHeadersResponse
                    (Some (mkCommonResponse headerMutation None false))))
              mode None)
   end).

(** *** The response-body event *)

(** The [switch rc.Type] of [maybeBuildDynamicMetadata]: the [uint32] cost
    of one request-cost rule, or the error the function returns with. *)
Definition requestCost (c : chatCompletionProcessor)
    (rc : processorConfigRequestCost) : result N :=
  match Type_ rc with
  | LLMRequestCostTypeInputToken => Ok (InputTokens (costs c))
  | LLMRequestCostTypeOutputToken => Ok (OutputTokens (costs c))
  | LLMRequestCostTypeTotalToken => Ok (TotalTokens (costs c))
  | LLMRequestCostTypeCEL =>
      match EvaluateProgram (celProg rc)
              (index (requestHeaders c) (modelNameHeaderKey (config c)))
              (index (requestHeaders c) (selectedBackendHeaderKey (config c)))
              (InputTokens (costs c))
              (OutputTokens (costs c))
              (TotalTokens (costs c)) with
      | Err err => Err (Errorf_w "failed to evaluate CEL expression: " err)
      | Ok costU64 => Ok (uint32_of costU64)
      end
  | LLMRequestCostTypeOther kind =>
      Err (errorString ("unknown request cost kind: " +:+ kind))
  end.

(** The [for] loop of [maybeBuildDynamicMetadata] over the request-cost
    rules still to be handled, [metadata] being the map built so far. *)
Fixpoint requestCosts_loop (rcs : list processorConfigRequestCost)
    (metadata : gmap string Value) : M (gmap string Value) :=
  match rcs with
  | [] => ret metadata
  | rc :: rcs =>
      do c <- get;
      match requestCost c rc with
      | Err err => fail err
      | Ok cost =>
          logger_Info
            (Info_setting_request_cost_metadata (Type_ rc) cost
               (MetadataKey rc));;
          requestCosts_loop rcs
            (<[MetadataKey rc := NumberValue cost]> metadata)
      end
  end.

Definition maybeBuildDynamicMetadata : M (option Struct) :=
  do c <- get;
  do metadata <- requestCosts_loop (requestCosts (config c)) ∅;
  if bool_decide (size metadata = 0%nat) then ret None
  else ret (Some {[ metadataNamespace (config c) := StructValue metadata ]}).

Definition ProcessResponseBody (body : HttpBody) : M ProcessingResponse :=
  defer (λ err, metrics_call
                  (RecordRequestCompletion
                     (match err with None => true | Some _ => false end)))
  (do c <- get;
   do br <-
     (if String.eqb (responseEncoding c) "gzip"
      then try "failed to decode gzip: "
             (gzip_NewReader (bytes_NewReader (Body body)))
      else ret (bytes_NewReader (Body body)));
   match translator c with
   | None =>
       ret (mkProcessingResponse (ProcessingResponse_ResponseBody None)
              None None)
   | Some t =>
       let '(r, t) :=
         ResponseBody t (responseHeaders c) br (EndOfStream body) in
       modify (set_translator (Some t));;
       do '(headerMutation, bodyMutation, tokenUsage) <-
         try "failed to transform response: " r;
       modify (λ c, set_costs
                      (mkLLMTokenUsage
                         (add32 (InputTokens (costs c))
                            (InputTokens tokenUsage))
                         (add32 (OutputTokens (costs c))
                            (OutputTokens tokenUsage))
                         (add32 (TotalTokens (costs c))
                            (TotalTokens tokenUsage))) c);;
       metrics_call
         (RecordTokenUsage (InputTokens tokenUsage)
            (OutputTokens tokenUsage) (TotalTokens tokenUsage));;
       (if stream c
        then metrics_call (RecordTokenLatency (OutputTokens tokenUsage))
        else ret tt);;
       do dynamicMetadata <-
         (if EndOfStream body
             && (0 <? length (requestCosts (config c)))%nat
          then wrapping "failed to build dynamic metadata: "
                 maybeBuildDynamicMetadata
          else ret None);
       ret (mkProcessingResponse
              (ProcessingResponse_ResponseBody
                 (Some (mkBodyResponse
                          (Some (mkCommonResponse headerMutation
                                   bodyMutation false)))))
              None dynamicMetadata)
   end).

End Processor.

(** ** Streams of response-body events

    What the statements below speak about: the reader a response-body event
    is decoded with, the token usage the translator reports for it, the
    successive calls of [ProcessResponseBody] on the body events of one
    stream, and the calls recorded on the metric sink. *)

Section Streams.
Context `{Translators} `{LLMCostCEL} `{HeaderMaps}.

(** The [io.Reader] handed to the translator for a body event. *)
Definition bodyReader (c : chatCompletionProcessor) (body : HttpBody)
  : result Reader :=
  if String.eqb (responseEncoding c) "gzip"
  then gzip_NewReader (bytes_NewReader (Body body))
  else Ok (bytes_NewReader (Body body)).

(** The outcome of [c.translator.ResponseBody] on a body event, when the
    event gets that far. *)
Definition translated (c : chatCompletionProcessor) (body : HttpBody)
  : option (result (option HeaderMutation * option BodyMutation
                    * LLMTokenUsage)) :=
  match translator c, bodyReader c body with
  | Some t, Ok br =>
      Some (fst (ResponseBody t (responseHeaders c) br (EndOfStream body)))
  | _, _ => None
  end.

(** The token-usage delta the translator returned for the event (zero
    when it returned none). *)
Definition tokenUsageDelta (c : chatCompletionProcessor) (body : HttpBody)
  : LLMTokenUsage :=
  match translated c body with
  | Some (Ok (_, _, tokenUsage)) => tokenUsage
  | _ => mkLLMTokenUsage 0 0 0
  end.

(** [c.costs] after [tokenUsage] has been added to it. *)
Definition accumulated (c : chatCompletionProcessor)
    (tokenUsage : LLMTokenUsage) : chatCompletionProcessor :=
  set_costs
    (mkLLMTokenUsage
       (add32 (InputTokens (costs c)) (InputTokens tokenUsage))
       (add32 (OutputTokens (costs c)) (OutputTokens tokenUsage))
       (add32 (TotalTokens (costs c)) (TotalTokens tokenUsage))) c.

(** The metric sink after the token usage of an event has been recorded. *)
Definition metered (c : chatCompletionProcessor)
    (tokenUsage : LLMTokenUsage) : chatCompletionProcessor :=
  let c :=
    set_metrics
      (metrics c
       ++ [RecordTokenUsage (InputTokens tokenUsage)
             (OutputTokens tokenUsage) (TotalTokens tokenUsage)]) c in
  if stream c
  then set_metrics
         (metrics c ++ [RecordTokenLatency (OutputTokens tokenUsage)]) c
  else c.

(** The metric sink after a request-completion event. *)
Definition completed (success : bool) (c : chatCompletionProcessor)
  : chatCompletionProcessor :=
  set_metrics (metrics c ++ [RecordRequestCompletion success]) c.

(** The reply to a translated response-body event. *)
Definition bodyReply (headerMutation : option HeaderMutation)
    (bodyMutation : option BodyMutation) (dynamicMetadata : option Struct)
  : ProcessingResponse :=
  mkProcessingResponse
    (ProcessingResponse_ResponseBody
       (Some (mkBodyResponse
                (Some (mkCommonResponse headerMutation bodyMutation
                         false)))))
    None dynamicMetadata.

Definition succeeded {A} (out : outcome A) : bool :=
  match out with
  | Return (Ok _) => true
  | _ => false
  end.

(** The calls of [ProcessResponseBody] on the body events of one stream, in
    order, each with the processor as the call leaves it; the stream ends
    with the first call that does not return a reply. *)
Fixpoint responseBodyCalls (bodies : list HttpBody)
    (c : chatCompletionProcessor)
  : list (outcome ProcessingResponse * chatCompletionProcessor) :=
  match bodies with
  | [] => []
  | body :: bodies =>
      let '(out, c') := ProcessResponseBody body c in
      (out, c') :: (if succeeded out then responseBodyCalls bodies c'
                    else [])
  end.

(** The token-usage deltas of those calls. *)
Fixpoint responseBodyDeltas (bodies : list HttpBody)
    (c : chatCompletionProcessor) : list LLMTokenUsage :=
  match bodies with
  | [] => []
  | body :: bodies =>
      let '(out, c') := ProcessResponseBody body c in
      tokenUsageDelta c body
      :: (if succeeded out then responseBodyDeltas bodies c' else [])
  end.

(** The processor before call [n] of a stream that started in [c] (after
    the last call, when there are fewer than [n] calls). *)
Fixpoint stateBefore (c : chatCompletionProcessor)
    (calls : list (outcome ProcessingResponse * chatCompletionProcessor))
    (n : nat) : chatCompletionProcessor :=
  match n, calls with
  | S n, call :: calls => stateBefore call.2 calls n
  | _, _ => c
  end.

Definition sumN (l : list N) : N := foldr N.add 0 l.

(** The success flags of the request-completion events on a metric sink. *)
Definition completions (sink : list MetricCall) : list bool :=
  omap (λ mc, match mc with
              | RecordRequestCompletion success => Some success
              | _ => None
              end) sink.

(** The request-cost rules that [requestCosts_loop] gets through, each with
    its cost, and the error that stops it, if any. *)
Fixpoint evaluated (c : chatCompletionProcessor)
    (rcs : list processorConfigRequestCost)
  : list (processorConfigRequestCost * N) * option error :=
  match rcs with
  | [] => ([], None)
  | rc :: rcs =>
      match requestCost c rc with
      | Err err => ([], Some err)
      | Ok cost =>
          let '(done, err) := evaluated c rcs in ((rc, cost) :: done, err)
      end
  end.

Definition costRecord (rv : processorConfigRequestCost * N) : LogRecord :=
  Info_setting_request_cost_metadata (Type_ rv.1) rv.2 (MetadataKey rv.1).

Definition costFields (metadata : gmap string Value)
    (done : list (processorConfigRequestCost * N)) : gmap string Value :=
  foldl (λ m rv, <[MetadataKey rv.1 := NumberValue rv.2]> m) metadata done.

(** The request headers the router is called with: the processor's, with
    the model of the parsed body under the model-name header key. *)
Definition routedHeaders (c : chatCompletionProcessor)
    (body : ChatCompletionRequest) : gmap string string :=
  <[modelNameHeaderKey (config c) := Model body]> (requestHeaders c).

(** The value of the selected-backend header for the backend [b] that the
    router chose. *)
Definition selectedBackendValue (b : Backend) : string :=
  match DynamicLoadBalancing b with
  | Some _ => "original_destination_cluster"
  | None => Backend_Name b
  end.

(** The reply to a routed request-body event. *)
Definition routedReply (headerMutation : HeaderMutation)
    (bodyMutation : option BodyMutation) : ProcessingResponse :=
  mkProcessingResponse
    (ProcessingResponse_RequestBody
       (mkBodyResponse
          (Some (mkCommonResponse (Some headerMutation) bodyMutation
                   true))))
    None None.

(** An auth handler that only adds to the headers it is asked to set. *)
Definition extendsSetHeaders (h : Handler) : Prop :=
  ∀ requestHeaders headerMutation bodyMutation,
    SetHeaders headerMutation
    ⊆ SetHeaders (Do h requestHeaders headerMutation bodyMutation).2.1.2.

(** An auth handler that leaves the request-header map as it finds it. *)
Definition keepsRequestHeaders (h : Handler) : Prop :=
  ∀ requestHeaders headerMutation bodyMutation,
    (Do h requestHeaders headerMutation bodyMutation).2.1.1 = requestHeaders.

(** A load balancer that records no request-completion event on the sink it
    is handed. *)
Definition keepsCompletions (lb : DynamicLoadBalancer) : Prop :=
  ∀ model sink,
    completions (SelectChatCompletionsEndpoint lb model sink).2
    = completions sink.

(** Whether a call ended with the body response of a routed request. *)
Definition isRoutedReply (out : outcome ProcessingResponse) : bool :=
  match out with
  | Return (Ok resp) =>
      match Response resp with
      | ProcessingResponse_RequestBody _ => true
      | _ => false
      end
  | _ => false
  end.

(** The endpoint [b'] a request routed to [b] is sent to, with the headers
    the load balancer contributes and the metric sink once the endpoint is
    known: [b] itself, or what the load balancer of [b] selects. *)
Definition selectsEndpoint (c : chatCompletionProcessor)
    (body : ChatCompletionRequest) (b b' : Backend)
    (headers : list HeaderValueOption) (sink : list MetricCall) : Prop :=
  (DynamicLoadBalancing b = None ∧ b' = b ∧ headers = []
   ∧ sink = metrics c ++ [SetModel (Model body)])
  ∨ ∃ lbRef lb,
      DynamicLoadBalancing b = Some lbRef
      ∧ dynamicLoadBalancers (config c) !! lbRef = Some lb
      ∧ SelectChatCompletionsEndpoint lb (Model body)
          (metrics c ++ [SetModel (Model body)])
        = (Ok (b', headers), sink).

(** The translator's header mutation (an empty one when it returned none)
    followed by the model-name header, the selected-backend header and the
    load balancer's headers. *)
Definition withRequestHeaders (translated : option HeaderMutation)
    (c : chatCompletionProcessor) (body : ChatCompletionRequest) (b : Backend)
    (headers : list HeaderValueOption) : HeaderMutation :=
  let translated := default (mkHeaderMutation [] []) translated in
  {| SetHeaders :=
       SetHeaders translated
       ++ [ {| Header := {| Key := modelNameHeaderKey (config c);
                            RawValue := Model body |} |};
            {| Header := {| Key := selectedBackendHeaderKey (config c);
                            RawValue := selectedBackendValue b |} |} ]
       ++ headers;
     RemoveHeaders := RemoveHeaders translated |}.

End Streams.

(** ** A small concrete gateway

    Instances of the collaborators and a configuration in the style of the
    repository's examples, on which the statements are evaluated. *)

Module Demo.

(** A request body is the model name, preceded by [~] when the request
    asks for streaming; the empty body does not parse. *)
Definition decode (body : bytes) : result (string * bool) :=
  match body with
  | EmptyString => Err (errorString "unexpected end of JSON input")
  | String "~"%char model => Ok (model, true)
  | model => Ok (model, false)
  end.

#[export] Instance openai : OpenAI :=
  {| ChatCompletionRequest := string * bool;
     Model := fst;
     Stream := snd;
     json_Unmarshal := decode |}.

#[export] Instance io : IO :=
  {| Reader := string;
     bytes_NewReader := λ b, b;
     gzip_NewReader := λ r, match r with
                            | EmptyString => Err (errorString "EOF")
                            | _ => Ok r
                            end |}.

(** A translator that passes everything through and reports, call after
    call, the token usages it was built with. *)
#[export] Instance translators : Translators :=
  {| OpenAIChatCompletionTranslator := list LLMTokenUsage;
     RequestBody := λ t _, (Ok (None, None), t);
     ResponseHeaders := λ t _, (Ok None, t);
     ResponseBody := λ t _ _ _,
       match t with
       | [] => (Ok (None, None, mkLLMTokenUsage 0 0 0), [])
       | tokenUsage :: t => (Ok (None, None, tokenUsage), t)
       end;
     NewChatCompletionOpenAIToOpenAITranslator := [mkLLMTokenUsage 10 3 13];
     NewChatCompletionOpenAIToAWSBedrockTranslator :=
       [mkLLMTokenUsage 0 0 0; mkLLMTokenUsage 10 3 13];
     NewChatCompletionOpenAIToAzureOpenAITranslator := λ _,
       [mkLLMTokenUsage 10 3 13] |}.

#[export] Instance llmcostcel : LLMCostCEL :=
  {| Program := string → string → N → N → N → result N;
     EvaluateProgram := λ prog, prog |}.

#[export] Instance headermaps : HeaderMaps :=
  {| headersToMap := λ headers,
       foldl (λ m h, <[Key h := RawValue h]> m) ∅ (Headers headers) |}.

Definition openaiBackend : Backend :=
  mkBackend "openai" (mkVersionedAPISchema APISchemaOpenAI "v1") None.
Definition bedrockBackend : Backend :=
  mkBackend "aws-bedrock" (mkVersionedAPISchema APISchemaAWSBedrock "") None.
Definition dynamicBackend : Backend :=
  mkBackend "pool" (mkVersionedAPISchema APISchemaOpenAI "v1") (Some 1%positive).

Definition demoRouter : Router :=
  mkRouter (λ headers,
    let model := index headers "x-ai-eg-model" in
    if String.eqb model "gpt-4o-mini" then Ok openaiBackend
    else if String.eqb model "llama3-70b" then Ok bedrockBackend
    else if String.eqb model "pooled" then Ok dynamicBackend
    else Err (ErrNoMatchingRule "no matching rule found")).

(** An API-key handler: it adds the authorization header. *)
Definition apiKeyHandler : Handler :=
  mkHandler (λ requestHeaders headerMutation bodyMutation,
    (Ok tt,
     (requestHeaders,
      mkHeaderMutation
        (SetHeaders headerMutation
         ++ [mkHeaderValueOption
               (mkHeaderValue "Authorization" "Bearer secret")])
        (RemoveHeaders headerMutation),
      default BodyMutation_unset bodyMutation))).

Definition poolBalancer : DynamicLoadBalancer :=
  mkDynamicLoadBalancer (λ model sink,
    (Ok (mkBackend "pool-endpoint-1"
           (mkVersionedAPISchema APISchemaOpenAI "v1") None,
         [mkHeaderValueOption
            (mkHeaderValue "x-ai-eg-original-dst" "10.0.0.1:8080")]),
     sink)).

(** Scenario 5 of the design: [input_tokens * 2 + output_tokens]. *)
Definition doubleInputPlusOutput : Program :=
  λ _ _ input output _, Ok (input * 2 + output).
(** A program whose result does not fit 32 bits. *)
Definition shiftedTotal : Program :=
  λ _ _ _ _ total, Ok (2 ^ 32 + total).
(** A program whose evaluation fails. *)
Definition failing : Program :=
  λ _ _ _ _ _, Err (errorString "no such overload").
Definition noProgram : Program :=
  λ _ _ _ _ _, Err (errorString "nil program").

Definition demoConfig (lbs : gmap positive DynamicLoadBalancer)
    (rcs : list processorConfigRequestCost) : processorConfig :=
  {| schema := mkVersionedAPISchema APISchemaOpenAI "v1";
     modelNameHeaderKey := "x-ai-eg-model";
     selectedBackendHeaderKey := "x-ai-eg-selected-backend";
     metadataNamespace := "io.envoy.ai_gateway";
     router := demoRouter;
     dynamicLoadBalancers := lbs;
     backendAuthHandlers := {[ "openai" := apiKeyHandler ]};
     requestCosts := rcs |}.

Definition inputAndExpression : list processorConfigRequestCost :=
  [ mkProcessorConfigRequestCost "input" LLMRequestCostTypeInputToken
      noProgram;
    mkProcessorConfigRequestCost "c" LLMRequestCostTypeCEL
      doubleInputPlusOutput ].

(** A processor as the factory builds it. *)
Definition fresh (cfg : processorConfig) : chatCompletionProcessor :=
  {| logger := []; config := cfg;
     requestHeaders := {[ ":path" := "/v1/chat/completions" ]};
     responseHeaders := ∅; responseEncoding := ""; translator := None;
     costs := mkLLMTokenUsage 0 0 0; metrics := [];
     stream := false; dynamicLB := None |}.

(** The same processor with a translator injected. *)
Definition withTranslator (t : list LLMTokenUsage)
    (c : chatCompletionProcessor) : chatCompletionProcessor :=
  set_translator (Some t) c.

(** Scenario 5: usage 10/3/13 and the rules [input] and [c]. *)
Definition scenario5 : chatCompletionProcessor :=
  withTranslator [mkLLMTokenUsage 10 3 13]
    (fresh (demoConfig ∅ inputAndExpression)).

(** Two body events whose usages add up within 32 bits. *)
Definition twoChunks : list HttpBody :=
  [mkHttpBody "data: a" false; mkHttpBody "data: [DONE]" true].

Definition streaming : chatCompletionProcessor :=
  withTranslator [mkLLMTokenUsage 10 3 13; mkLLMTokenUsage 5 2 7]
    (fresh (demoConfig ∅ [])).

(** Two body events whose input usages add up to 2^32. *)
Definition overflowing : chatCompletionProcessor :=
  withTranslator [mkLLMTokenUsage 4294967295 0 4294967295;
                  mkLLMTokenUsage 1 0 1]
    (fresh (demoConfig ∅ [])).

(** A rule whose expression fails, after one that does not. *)
Definition withFailingRule : chatCompletionProcessor :=
  withTranslator [mkLLMTokenUsage 10 3 13]
    (fresh (demoConfig ∅
              [ mkProcessorConfigRequestCost "input"
                  LLMRequestCostTypeInputToken noProgram;
                mkProcessorConfigRequestCost "c" LLMRequestCostTypeCEL
                  failing ])).

(** A rule whose expression yields 2^32 + total_tokens. *)
Definition withLargeCost : chatCompletionProcessor :=
  withTranslator [mkLLMTokenUsage 10 3 13]
    (fresh (demoConfig ∅
              [ mkProcessorConfigRequestCost "c" LLMRequestCostTypeCEL
                  shiftedTotal ])).

(** Scenario 2: a streaming request routed to Bedrock, then the response
    headers with status 200. *)
Definition afterStreamingRequest : chatCompletionProcessor :=
  (ProcessRequestBody (mkHttpBody "~llama3-70b" false)
     (fresh (demoConfig ∅ []))).2.

Definition status200 : HeaderMap :=
  mkHeaderMap [mkHeaderValue ":status" "200";
               mkHeaderValue "content-type" "text/event-stream"].

(** A backend whose schema the processor has no translator for, and routers
    with a fixed answer. *)
Definition unsupportedBackend : Backend :=
  mkBackend "anthropic" (mkVersionedAPISchema (APISchemaOther "Anthropic") "v1")
    None.

Definition constRouter (b : Backend) : Router := mkRouter (λ _, Ok b).

Definition brokenRouter : Router :=
  mkRouter (λ _, Err (errorString "invalid rule program")).

Definition failingBalancer : DynamicLoadBalancer :=
  mkDynamicLoadBalancer (λ _ sink,
    (Err (errorString "no endpoint available"), sink)).

Definition expiredHandler : Handler :=
  mkHandler (λ requestHeaders headerMutation bodyMutation,
    (Err (errorString "credentials expired"),
     (requestHeaders, headerMutation,
      default BodyMutation_unset bodyMutation))).

(** [demoConfig] with another router and other auth handlers. *)
Definition configWith (r : Router) (handlers : gmap string Handler)
    (lbs : gmap positive DynamicLoadBalancer)
    (rcs : list processorConfigRequestCost) : processorConfig :=
  {| schema := mkVersionedAPISchema APISchemaOpenAI "v1";
     modelNameHeaderKey := "x-ai-eg-model";
     selectedBackendHeaderKey := "x-ai-eg-selected-backend";
     metadataNamespace := "io.envoy.ai_gateway";
     router := r;
     dynamicLoadBalancers := lbs;
     backendAuthHandlers := handlers;
     requestCosts := rcs |}.

Definition gzipHeaders : HeaderMap :=
  mkHeaderMap [mkHeaderValue ":status" "200";
               mkHeaderValue "content-encoding" "gzip"].

(** A rule of a kind the processor does not know, after one it knows. *)
Definition withUnknownKind : chatCompletionProcessor :=
  withTranslator [mkLLMTokenUsage 10 3 13]
    (fresh (demoConfig ∅
              [ mkProcessorConfigRequestCost "total"
                  LLMRequestCostTypeTotalToken noProgram;
                mkProcessorConfigRequestCost "x"
                  (LLMRequestCostTypeOther "Bogus") noProgram ])).

End Demo.

(** The same gateway with a translator that fails at every step. *)
Module Faulty.

#[local] Existing Instance Demo.openai.
#[local] Existing Instance Demo.io.
#[local] Existing Instance Demo.llmcostcel.
#[local] Existing Instance Demo.headermaps.

Definition translators : Translators :=
  {| OpenAIChatCompletionTranslator := nat;
     RequestBody := λ calls _,
       (Err (errorString "unsupported parameter"), S calls);
     ResponseHeaders := λ calls _,
       (Err (errorString "unexpected content type"), S calls);
     ResponseBody := λ calls _ _ _,
       (Err (errorString "invalid chunk"), S calls);
     NewChatCompletionOpenAIToOpenAITranslator := O;
     NewChatCompletionOpenAIToAWSBedrockTranslator := O;
     NewChatCompletionOpenAIToAzureOpenAITranslator := λ _, O |}.

#[local] Existing Instance translators.

Definition fresh (cfg : processorConfig) : chatCompletionProcessor :=
  {| logger := []; config := cfg;
     requestHeaders := {[ ":path" := "/v1/chat/completions" ]};
     responseHeaders := ∅; responseEncoding := ""; translator := None;
     costs := mkLLMTokenUsage 0 0 0; metrics := [];
     stream := false; dynamicLB := None |}.

(** A processor whose translator has already been used twice. *)
Definition bound (cfg : processorConfig) : chatCompletionProcessor :=
  set_translator (Some 2%nat) (fresh cfg).

End Faulty.

(** ** Tactics *)

(** [run] unfolds the combinators of the method monad. *)
Ltac run :=
  unfold bind, ret, fail, panic, get, modify, try, wrapping, defer,
    metrics_call, logger_Info in *;
  simpl in *.

(** [evaluate t as H]: the value of the closed term [t], by computation. *)
Tactic Notation "evaluate" constr(t) "as" ident(H) :=
  let v := eval vm_compute in t in
  assert (t = v) as H by (vm_compute; reflexivity).

(** Case analysis on every branch of [ProcessRequestBody]. *)
Ltac cases :=
  unfold ProcessRequestBody, parseOpenAIChatCompletionBody, selectTranslator;
  run; repeat (case_match; simplify_eq/=; run).

(** Run [ProcessRequestBody] up to the selection of the translator. *)
Ltac to_endpoint Hjson Hroute Hendpoint :=
  unfold ProcessRequestBody, parseOpenAIChatCompletionBody, routedHeaders,
    routedReply, withRequestHeaders in *;
  unfold selectedBackendValue in *;
  rewrite Hjson; unfold bind at 1, try, ret, defer; simpl;
  unfold bind, get, modify, logger_Info, metrics_call, wrapping, ret; simpl;
  rewrite Hroute; simpl;
  destruct Hendpoint as [(Hlb & -> & -> & ->)|(lbRef & lb & Hlb & Hlookup
                                               & Hsel)];
  rewrite Hlb; simpl; [|rewrite Hlookup; simpl; rewrite Hsel; simpl].

(** Replace the selection of the translator by its result, given the lemma
    [selected] that computes it. *)
Ltac select_translator selected Hselect :=
  match goal with
  | |- context [selectTranslator ?s ?c0] =>
      rewrite (selected s _ c0 _ Hselect eq_refl)
  end; simpl.

(** ** Properties *)

Section Properties.
Context `{Translators} `{LLMCostCEL} `{HeaderMaps}.

(** *** The request-body event *)

(** C1.  When the body parses and the router, called on the request headers
    completed with the model, answers with an error that is
    [ErrNoMatchingRule], [ProcessRequestBody] returns, without error, an
    immediate response of status 404 whose body is the text of the router's
    error, and the metric sink receives the model and then one
    request-completion event, a failure. *)
Theorem C1_no_matching_rule_404 (c : chatCompletionProcessor)
    (rawBody : HttpBody) (body : ChatCompletionRequest) (err : error) :
  json_Unmarshal (Body rawBody) = Ok body →
  Calculate (router (config c))
    (<[modelNameHeaderKey (config c) := Model body]> (requestHeaders c))
  = Err err →
  errors_Is_ErrNoMatchingRule err = true →
  ∃ c',
    ProcessRequestBody rawBody c
    = (Return (Ok {| Response :=
                       ProcessingResponse_ImmediateResponse
                         {| Status := {| Code := 404 |};
                            ImmediateResponse_Body := Error err |};
                     ModeOverride := None;
                     DynamicMetadata := None |}), c')
    ∧ metrics c'
      = metrics c ++ [SetModel (Model body); RecordRequestCompletion false]
    ∧ completions (metrics c') = completions (metrics c) ++ [false].
Proof.
  intros Hparse Hroute Hno.
  unfold ProcessRequestBody, parseOpenAIChatCompletionBody.
  rewrite Hparse. run. rewrite Hroute, Hno. simpl.
  eexists. split; [reflexivity|]. simpl.
  rewrite <- app_assoc. split; [reflexivity|].
  unfold completions. rewrite omap_app. reflexivity.
Qed.

(** *** The cost loop *)

Lemma set_logger_id (c : chatCompletionProcessor) :
  set_logger (logger c) c = c.
Proof. destruct c; reflexivity. Qed.

Lemma evaluated_set_logger (l : list LogRecord) (c : chatCompletionProcessor)
    (rcs : list processorConfigRequestCost) :
  evaluated (set_logger l c) rcs = evaluated c rcs.
Proof.
  induction rcs as [|rc rcs IH]; simpl; [reflexivity|].
  change (requestCost (set_logger l c) rc) with (requestCost c rc).
  destruct (requestCost c rc); [|reflexivity]. rewrite IH. reflexivity.
Qed.

(** The loop computes what [evaluated] lists: it logs one record per rule
    it gets through, inserts the cost of each under its key, and stops with
    the error of the first rule that has none. *)
Lemma requestCosts_loop_eq (rcs : list processorConfigRequestCost) :
  ∀ (metadata : gmap string Value) (c : chatCompletionProcessor),
    requestCosts_loop rcs metadata c
    = (match (evaluated c rcs).2 with
       | None => Return (Ok (costFields metadata (evaluated c rcs).1))
       | Some err => Return (Err err)
       end,
       set_logger (logger c ++ (costRecord <$> (evaluated c rcs).1)) c).
Proof.
  induction rcs as [|rc rcs IH]; intros metadata c; simpl.
  - unfold ret. rewrite app_nil_r, set_logger_id. reflexivity.
  - run. destruct (requestCost c rc) as [cost|err] eqn:Hrc; simpl.
    + rewrite IH, evaluated_set_logger.
      destruct (evaluated c rcs) as [done err]; simpl.
      rewrite <- app_assoc. reflexivity.
    + rewrite app_nil_r, set_logger_id. reflexivity.
Qed.

Lemma costFields_snoc (metadata : gmap string Value)
    (done : list (processorConfigRequestCost * N))
    (rv : processorConfigRequestCost * N) :
  costFields metadata (done ++ [rv])
  = <[MetadataKey rv.1 := NumberValue rv.2]> (costFields metadata done).
Proof. unfold costFields. rewrite foldl_app. reflexivity. Qed.

Lemma costFields_empty_iff (done : list (processorConfigRequestCost * N)) :
  costFields ∅ done = ∅ ↔ done = [].
Proof.
  split; [|intros ->; reflexivity].
  destruct done as [|rv done _] using rev_ind; [reflexivity|].
  rewrite costFields_snoc. intros Hempty.
  exact (False_ind _ (insert_non_empty _ _ _ Hempty)).
Qed.

Lemma maybeBuildDynamicMetadata_eq (c : chatCompletionProcessor) :
  maybeBuildDynamicMetadata c
  = (match (evaluated c (requestCosts (config c))).2 with
     | Some err => Return (Err err)
     | None =>
         match (evaluated c (requestCosts (config c))).1 with
         | [] => Return (Ok None)
         | done =>
             Return (Ok (Some {[ metadataNamespace (config c)
                                 := StructValue (costFields ∅ done) ]}))
         end
     end,
     set_logger
       (logger c
        ++ (costRecord <$> (evaluated c (requestCosts (config c))).1)) c).
Proof.
  unfold maybeBuildDynamicMetadata. run. rewrite requestCosts_loop_eq.
  destruct (evaluated c (requestCosts (config c))) as [done [err|]]; simpl;
    [reflexivity|].
  case_bool_decide as Hsize.
  - apply map_size_empty_iff, costFields_empty_iff in Hsize. subst done.
    reflexivity.
  - destruct done as [|rv done]; [|reflexivity].
    exfalso. apply Hsize. reflexivity.
Qed.

Lemma evaluated_ext (c c' : chatCompletionProcessor)
    (rcs : list processorConfigRequestCost) :
  costs c = costs c' → requestHeaders c = requestHeaders c' →
  config c = config c' →
  evaluated c rcs = evaluated c' rcs.
Proof.
  intros Hcosts Hheaders Hconfig.
  induction rcs as [|rc rcs IH]; simpl; [reflexivity|].
  assert (requestCost c rc = requestCost c' rc) as ->.
  { unfold requestCost. rewrite Hcosts, Hheaders, Hconfig. reflexivity. }
  rewrite IH. reflexivity.
Qed.

Lemma evaluated_length (c : chatCompletionProcessor)
    (rcs : list processorConfigRequestCost) :
  (evaluated c rcs).2 = None →
  length (evaluated c rcs).1 = length rcs.
Proof.
  induction rcs as [|rc rcs IH]; simpl; [reflexivity|].
  destruct (requestCost c rc); [|discriminate].
  destruct (evaluated c rcs) as [done err]; simpl in *.
  intros ->. rewrite IH; reflexivity.
Qed.

(** *** The response-body event, case by case *)

Lemma ProcessResponseBody_reader_error (c : chatCompletionProcessor)
    (body : HttpBody) (err : error) :
  bodyReader c body = Err err →
  ProcessResponseBody body c
  = (Return (Err (Errorf_w "failed to decode gzip: " err)),
     completed false c).
Proof.
  unfold ProcessResponseBody, bodyReader. run.
  destruct (String.eqb (responseEncoding c) "gzip"); [|discriminate].
  intros ->. reflexivity.
Qed.

Lemma ProcessResponseBody_no_translator (c : chatCompletionProcessor)
    (body : HttpBody) (br : Reader) :
  bodyReader c body = Ok br → translator c = None →
  ProcessResponseBody body c
  = (Return (Ok (mkProcessingResponse (ProcessingResponse_ResponseBody None)
                   None None)),
     completed true c).
Proof.
  unfold ProcessResponseBody, bodyReader. run. intros Hbr ->.
  destruct (String.eqb (responseEncoding c) "gzip");
    [rewrite Hbr|]; reflexivity.
Qed.

Lemma ProcessResponseBody_translator_error (c : chatCompletionProcessor)
    (body : HttpBody) (br : Reader) (t t' : OpenAIChatCompletionTranslator)
    (err : error) :
  bodyReader c body = Ok br → translator c = Some t →
  ResponseBody t (responseHeaders c) br (EndOfStream body) = (Err err, t') →
  ProcessResponseBody body c
  = (Return (Err (Errorf_w "failed to transform response: " err)),
     completed false (set_translator (Some t') c)).
Proof.
  unfold ProcessResponseBody, bodyReader. run. intros Hbr -> Htr.
  destruct (String.eqb (responseEncoding c) "gzip");
    [rewrite Hbr|injection Hbr as <-]; simpl; rewrite Htr; reflexivity.
Qed.

Lemma ProcessResponseBody_translated (c : chatCompletionProcessor)
    (body : HttpBody) (br : Reader) (t t' : OpenAIChatCompletionTranslator)
    (headerMutation : option HeaderMutation)
    (bodyMutation : option BodyMutation) (tokenUsage : LLMTokenUsage) :
  bodyReader c body = Ok br → translator c = Some t →
  ResponseBody t (responseHeaders c) br (EndOfStream body)
  = (Ok (headerMutation, bodyMutation, tokenUsage), t') →
  let c1 := metered (accumulated (set_translator (Some t') c) tokenUsage)
              tokenUsage in
  let rcs := requestCosts (config c) in
  let c2 := set_logger (logger c1 ++ (costRecord <$> (evaluated c1 rcs).1))
              c1 in
  ProcessResponseBody body c
  = if EndOfStream body && (0 <? length rcs)%nat then
      match (evaluated c1 rcs).2 with
      | Some err =>
          (Return (Err (Errorf_w "failed to build dynamic metadata: " err)),
           completed false c2)
      | None =>
          (Return (Ok (bodyReply headerMutation bodyMutation
                         (Some {[ metadataNamespace (config c)
                                  := StructValue
                                       (costFields ∅ (evaluated c1 rcs).1)
                               ]}))),
           completed true c2)
      end
    else (Return (Ok (bodyReply headerMutation bodyMutation None)),
          completed true c1).
Proof.
  intros Hbr Ht Htr c1 rcs c2.
  assert (config c1 = config c) as Hconfig
    by (unfold c1, metered; simpl; destruct (stream c); reflexivity).
  assert (ProcessResponseBody body c
          = defer (λ err, metrics_call
                            (RecordRequestCompletion
                               (match err with
                                | None => true | Some _ => false end)))
              (bind (if EndOfStream body && (0 <? length rcs)%nat
                     then wrapping "failed to build dynamic metadata: "
                            maybeBuildDynamicMetadata
                     else ret None)
                 (λ dynamicMetadata,
                    ret (bodyReply headerMutation bodyMutation
                           dynamicMetadata))) c1) as ->.
  { clear c2 Hconfig. subst c1. unfold metered, accumulated.
    unfold ProcessResponseBody, bodyReader in *. run. rewrite Ht.
    destruct (String.eqb (responseEncoding c) "gzip");
      [rewrite Hbr|injection Hbr as <-]; simpl; rewrite Htr; simpl;
      destruct (stream c); reflexivity. }
  destruct (EndOfStream body && (0 <? length rcs)%nat) eqn:Hfinal;
    [|reflexivity].
  unfold defer, bind, wrapping. rewrite maybeBuildDynamicMetadata_eq.
  rewrite Hconfig. fold rcs. fold c2.
  destruct (evaluated c1 rcs).2 as [err|] eqn:Herr; [reflexivity|].
  apply evaluated_length in Herr.
  destruct (evaluated c1 rcs).1 as [|rv done] eqn:Hdone; [|reflexivity].
  apply andb_prop in Hfinal as [_ Hlen]. apply Nat.ltb_lt in Hlen.
  simpl in Herr. lia.
Qed.

(** *** Request-completion events of the response body *)

Lemma completions_app (sink sink' : list MetricCall) :
  completions (sink ++ sink') = completions sink ++ completions sink'.
Proof. apply omap_app. Qed.

Lemma metrics_metered (c : chatCompletionProcessor)
    (tokenUsage : LLMTokenUsage) :
  ∃ calls, metrics (metered c tokenUsage) = metrics c ++ calls
           ∧ completions calls = [].
Proof.
  unfold metered. simpl. destruct (stream c); simpl.
  - exists [RecordTokenUsage (InputTokens tokenUsage)
              (OutputTokens tokenUsage) (TotalTokens tokenUsage);
            RecordTokenLatency (OutputTokens tokenUsage)].
    rewrite <- app_assoc. split; reflexivity.
  - eexists. split; reflexivity.
Qed.

(** What one call of [ProcessResponseBody] leaves on the metric sink: calls
    that are not request-completion events, then one request-completion
    event whose flag tells whether the call returned a reply. *)
Lemma ProcessResponseBody_metrics (body : HttpBody)
    (c : chatCompletionProcessor) :
  ∃ calls,
    metrics (ProcessResponseBody body c).2
    = metrics c ++ calls
      ++ [RecordRequestCompletion (succeeded (ProcessResponseBody body c).1)]
    ∧ completions calls = [].
Proof.
  destruct (bodyReader c body) as [br|err] eqn:Hbr.
  2: { rewrite (ProcessResponseBody_reader_error _ _ _ Hbr).
       exists []. split; reflexivity. }
  destruct (translator c) as [t|] eqn:Ht.
  2: { rewrite (ProcessResponseBody_no_translator _ _ _ Hbr Ht).
       exists []. split; reflexivity. }
  destruct (ResponseBody t (responseHeaders c) br (EndOfStream body))
    as [[[[headerMutation bodyMutation] tokenUsage]|err] t'] eqn:Htr.
  2: { rewrite (ProcessResponseBody_translator_error _ _ _ _ _ _ Hbr Ht Htr).
       exists []. split; reflexivity. }
  rewrite (ProcessResponseBody_translated _ _ _ _ _ _ _ _ Hbr Ht Htr).
  destruct (metrics_metered (accumulated (set_translator (Some t') c)
                               tokenUsage) tokenUsage)
    as (calls & Hcalls & Hnone).
  exists calls. split; [|exact Hnone].
  destruct (EndOfStream body && _); [destruct (evaluated _ _).2|];
    simpl; rewrite Hcalls; simpl; rewrite <- app_assoc; reflexivity.
Qed.

Lemma ProcessResponseBody_returns (body : HttpBody)
    (c : chatCompletionProcessor) :
  ∃ r, (ProcessResponseBody body c).1 = Return r.
Proof.
  destruct (bodyReader c body) as [br|err] eqn:Hbr.
  2: { rewrite (ProcessResponseBody_reader_error _ _ _ Hbr). eauto. }
  destruct (translator c) as [t|] eqn:Ht.
  2: { rewrite (ProcessResponseBody_no_translator _ _ _ Hbr Ht). eauto. }
  destruct (ResponseBody t (responseHeaders c) br (EndOfStream body))
    as [[[[headerMutation bodyMutation] tokenUsage]|err] t'] eqn:Htr.
  2: { rewrite (ProcessResponseBody_translator_error _ _ _ _ _ _ Hbr Ht Htr).
       eauto. }
  rewrite (ProcessResponseBody_translated _ _ _ _ _ _ _ _ Hbr Ht Htr).
  destruct (EndOfStream body && _); [destruct (evaluated _ _).2|]; eauto.
Qed.

Lemma ProcessResponseBody_completions (body : HttpBody)
    (c : chatCompletionProcessor) :
  completions (metrics (ProcessResponseBody body c).2)
  = completions (metrics c) ++ [succeeded (ProcessResponseBody body c).1].
Proof.
  destruct (ProcessResponseBody_metrics body c) as (calls & -> & Hnone).
  rewrite !completions_app, Hnone. reflexivity.
Qed.

Lemma responseBodyCalls_cons (body : HttpBody) (bodies : list HttpBody)
    (c : chatCompletionProcessor) :
  responseBodyCalls (body :: bodies) c
  = ProcessResponseBody body c
    :: (if succeeded (ProcessResponseBody body c).1
        then responseBodyCalls bodies (ProcessResponseBody body c).2
        else []).
Proof. simpl. destruct (ProcessResponseBody body c); reflexivity. Qed.

Lemma stateBefore_cons (c : chatCompletionProcessor)
    (call : outcome ProcessingResponse * chatCompletionProcessor)
    (calls : list (outcome ProcessingResponse * chatCompletionProcessor))
    (n : nat) :
  stateBefore c (call :: calls) (S n) = stateBefore call.2 calls n.
Proof. reflexivity. Qed.

Lemma responseBodyCalls_completions (bodies : list HttpBody) :
  ∀ c : chatCompletionProcessor,
    let calls := responseBodyCalls bodies c in
    completions (metrics (stateBefore c calls (length calls)))
    = completions (metrics c) ++ ((λ call, succeeded call.1) <$> calls).
Proof.
  induction bodies as [|body bodies IH]; intros c.
  - simpl. rewrite app_nil_r. reflexivity.
  - cbv zeta. rewrite responseBodyCalls_cons. cbn [length].
    rewrite stateBefore_cons, fmap_cons.
    pose proof (ProcessResponseBody_completions body c) as Hone.
    destruct (ProcessResponseBody body c) as [out c']. cbn [fst snd] in *.
    destruct (succeeded out).
    + rewrite IH, Hone, <- app_assoc. reflexivity.
    + simpl. rewrite Hone. reflexivity.
Qed.

Lemma responseBodyCalls_all_succeeded (bodies : list HttpBody) :
  ∀ c : chatCompletionProcessor,
    Forall (λ call, succeeded call.1 = true) (responseBodyCalls bodies c) →
    length (responseBodyCalls bodies c) = length bodies
    ∧ (λ call, succeeded call.1) <$> responseBodyCalls bodies c
      = replicate (length bodies) true.
Proof.
  induction bodies as [|body bodies IH]; intros c; [split; reflexivity|].
  rewrite responseBodyCalls_cons. intros Hall.
  apply Forall_cons in Hall as [Hout Hall]. cbn [fst] in Hout.
  rewrite Hout in Hall |- *.
  destruct (IH _ Hall) as [Hlen Hflags]. split.
  - cbn [length]. rewrite Hlen. reflexivity.
  - rewrite fmap_cons. cbn [fst length replicate].
    rewrite Hout, Hflags. reflexivity.
Qed.

(** C10.  Every call of [ProcessResponseBody], whether or not the event is
    the last of the stream, returns (a reply or an error) and adds to the
    metric sink exactly one request-completion event, after the other
    calls it makes; the event's flag is true exactly when the call returned
    a reply.  Over the body events of a stream the sink so receives one
    request-completion event per call, and when the [n] events of a stream
    all get a reply, [n] successes. *)
Theorem C10_completion_recorded_per_body_event :
  (∀ (body : HttpBody) (c : chatCompletionProcessor),
     (∃ r, (ProcessResponseBody body c).1 = Return r)
     ∧ (∃ calls,
          metrics (ProcessResponseBody body c).2
          = metrics c ++ calls
            ++ [RecordRequestCompletion
                  (succeeded (ProcessResponseBody body c).1)]
          ∧ completions calls = [])
     ∧ completions (metrics (ProcessResponseBody body c).2)
       = completions (metrics c)
         ++ [succeeded (ProcessResponseBody body c).1])
  ∧ (∀ (bodies : list HttpBody) (c : chatCompletionProcessor),
       let calls := responseBodyCalls bodies c in
       completions (metrics (stateBefore c calls (length calls)))
       = completions (metrics c) ++ ((λ call, succeeded call.1) <$> calls))
  ∧ (∀ (bodies : list HttpBody) (c : chatCompletionProcessor),
       let calls := responseBodyCalls bodies c in
       Forall (λ call, succeeded call.1 = true) calls →
       length calls = length bodies
       ∧ completions (metrics (stateBefore c calls (length calls)))
         = completions (metrics c) ++ replicate (length bodies) true).
Proof.
  split; [|split].
  - intros body c. split; [|split].
    + apply ProcessResponseBody_returns.
    + apply ProcessResponseBody_metrics.
    + apply ProcessResponseBody_completions.
  - apply responseBodyCalls_completions.
  - intros bodies c calls Hall.
    destruct (responseBodyCalls_all_succeeded bodies c Hall) as [Hlen Hflags].
    split; [exact Hlen|].
    unfold calls. rewrite responseBodyCalls_completions, Hflags.
    reflexivity.
Qed.

(** *** Accumulated token usage *)

Lemma uint32_of_lt (x : N) : uint32_of x < 2 ^ 32.
Proof. apply N.mod_lt. discriminate. Qed.

Lemma uint32_of_small (x : N) : x < 2 ^ 32 → uint32_of x = x.
Proof. apply N.mod_small. Qed.

Lemma add32_add32 (a d s : N) :
  uint32_of (add32 a d + s) = uint32_of (a + (d + s)).
Proof.
  unfold add32, uint32_of.
  rewrite N.Div0.add_mod_idemp_l, N.add_assoc. reflexivity.
Qed.

(** One call leaves [c.costs] as it was, or with the usage the translator
    returned added to it. *)
Lemma ProcessResponseBody_costs (body : HttpBody)
    (c : chatCompletionProcessor) :
  costs (ProcessResponseBody body c).2
  = match translated c body with
    | Some (Ok (_, _, tokenUsage)) => costs (accumulated c tokenUsage)
    | _ => costs c
    end.
Proof.
  unfold translated.
  destruct (bodyReader c body) as [br|err] eqn:Hbr.
  2: { rewrite (ProcessResponseBody_reader_error _ _ _ Hbr).
       destruct (translator c); reflexivity. }
  destruct (translator c) as [t|] eqn:Ht.
  2: { rewrite (ProcessResponseBody_no_translator _ _ _ Hbr Ht).
       reflexivity. }
  destruct (ResponseBody t (responseHeaders c) br (EndOfStream body))
    as [[[[headerMutation bodyMutation] tokenUsage]|err] t'] eqn:Htr.
  2: { rewrite (ProcessResponseBody_translator_error _ _ _ _ _ _ Hbr Ht Htr).
       reflexivity. }
  rewrite (ProcessResponseBody_translated _ _ _ _ _ _ _ _ Hbr Ht Htr).
  unfold metered. simpl.
  destruct (EndOfStream body && _); [destruct (evaluated _ _).2|];
    simpl; destruct (stream c); reflexivity.
Qed.

Section Component.
(** One of the three counters of a token usage. *)
Variable f : LLMTokenUsage → N.
Hypothesis f_zero : f (mkLLMTokenUsage 0 0 0) = 0.
Hypothesis f_accumulated :
  ∀ (c : chatCompletionProcessor) (tokenUsage : LLMTokenUsage),
    f (costs (accumulated c tokenUsage))
    = add32 (f (costs c)) (f tokenUsage).

Lemma ProcessResponseBody_component (body : HttpBody)
    (c : chatCompletionProcessor) :
  f (costs c) < 2 ^ 32 →
  f (costs (ProcessResponseBody body c).2)
  = add32 (f (costs c)) (f (tokenUsageDelta c body)).
Proof.
  intros Hrange. rewrite ProcessResponseBody_costs.
  unfold tokenUsageDelta.
  destruct (translated c body) as [[[[? ?] tokenUsage]|?]|];
    try apply f_accumulated;
    rewrite f_zero; unfold add32; rewrite N.add_0_r, uint32_of_small;
    auto.
Qed.

Lemma responseBodyCalls_component (bodies : list HttpBody) :
  ∀ (c : chatCompletionProcessor) (n : nat)
    (call : outcome ProcessingResponse * chatCompletionProcessor),
    f (costs c) < 2 ^ 32 →
    responseBodyCalls bodies c !! n = Some call →
    f (costs call.2)
    = uint32_of (f (costs c)
                 + sumN (f <$> take (S n) (responseBodyDeltas bodies c))).
Proof.
  induction bodies as [|body bodies IH]; intros c n call Hrange Hcall;
    [discriminate|].
  pose proof (ProcessResponseBody_component body c Hrange) as Hstep.
  rewrite responseBodyCalls_cons in Hcall. simpl.
  destruct (ProcessResponseBody body c) as [out c']. cbn [fst snd] in *.
  destruct n as [|n].
  - injection Hcall as <-. simpl. rewrite N.add_0_r. exact Hstep.
  - destruct (succeeded out); [|discriminate]. cbn [lookup] in Hcall.
    simpl in Hcall.
    rewrite (IH c' n call); [|rewrite Hstep; apply uint32_of_lt|exact Hcall].
    rewrite Hstep. cbn [take fmap list_fmap sumN foldr].
    apply add32_add32.
Qed.

Lemma stateBefore_lookup (c : chatCompletionProcessor)
    (calls : list (outcome ProcessingResponse * chatCompletionProcessor)) :
  ∀ (n : nat) (call : outcome ProcessingResponse * chatCompletionProcessor),
    calls !! n = Some call → stateBefore c calls (S n) = call.2.
Proof.
  revert c. induction calls as [|call' calls IH]; intros c n call Hcall;
    [discriminate|].
  destruct n as [|n].
  - injection Hcall as <-. destruct calls; reflexivity.
  - rewrite stateBefore_cons. apply IH. exact Hcall.
Qed.

Lemma sumN_take_le (l : list N) (n : nat) :
  sumN (take n l) ≤ sumN (take (S n) l).
Proof.
  revert n. induction l as [|x l IH]; intros [|n]; simpl; try lia.
  specialize (IH n). simpl in IH. lia.
Qed.

Lemma responseBodyCalls_component_before (bodies : list HttpBody)
    (c : chatCompletionProcessor) (n : nat)
    (call : outcome ProcessingResponse * chatCompletionProcessor) :
  f (costs c) < 2 ^ 32 →
  responseBodyCalls bodies c !! n = Some call →
  f (costs (stateBefore c (responseBodyCalls bodies c) n))
  = uint32_of (f (costs c)
               + sumN (f <$> take n (responseBodyDeltas bodies c))).
Proof.
  intros Hrange Hcall. destruct n as [|n].
  - simpl. rewrite N.add_0_r, uint32_of_small by exact Hrange.
    destruct (responseBodyCalls bodies c); reflexivity.
  - assert (is_Some (responseBodyCalls bodies c !! n)) as [call' Hcall'].
    { apply lookup_lt_is_Some. apply lookup_lt_Some in Hcall. lia. }
    rewrite (stateBefore_lookup _ _ _ _ Hcall').
    apply responseBodyCalls_component; assumption.
Qed.

Lemma responseBodyCalls_component_monotone (bodies : list HttpBody)
    (c : chatCompletionProcessor) (n : nat)
    (call : outcome ProcessingResponse * chatCompletionProcessor) :
  f (costs c) = 0 →
  responseBodyCalls bodies c !! n = Some call →
  sumN (f <$> take (S n) (responseBodyDeltas bodies c)) ≤ MaxUint32 →
  f (costs (stateBefore c (responseBodyCalls bodies c) n))
  ≤ f (costs call.2).
Proof.
  intros Hzero Hcall Hsum.
  assert (f (costs c) < 2 ^ 32) as Hrange by (rewrite Hzero; reflexivity).
  rewrite (responseBodyCalls_component_before _ _ _ _ Hrange Hcall).
  rewrite (responseBodyCalls_component _ _ _ _ Hrange Hcall).
  rewrite Hzero, !N.add_0_l.
  pose proof (sumN_take_le (f <$> responseBodyDeltas bodies c) n) as Hle.
  rewrite <- !fmap_take in Hle.
  unfold MaxUint32 in Hsum.
  rewrite !uint32_of_small; [exact Hle| |]; simpl in *; lia.
Qed.
End Component.

(** The counters start at zero and only body events move them: the factory
    builds the processor with zero counters, and the request-headers,
    request-body and response-headers events leave them as they are. *)
Lemma ChatCompletionProcessorFactory_costs (ccm : list MetricCall)
    (cfg : processorConfig) (requestHeaders : gmap string string)
    (logger : list LogRecord) (c : chatCompletionProcessor) :
  ChatCompletionProcessorFactory ccm cfg requestHeaders logger = Ok c →
  costs c = mkLLMTokenUsage 0 0 0.
Proof.
  unfold ChatCompletionProcessorFactory.
  destruct (Name (schema cfg)); intros [= <-]; reflexivity.
Qed.

Lemma ProcessRequestHeaders_costs (headers : HeaderMap)
    (c : chatCompletionProcessor) :
  costs (ProcessRequestHeaders headers c).2 = costs c.
Proof. reflexivity. Qed.

Lemma ProcessRequestBody_costs (rawBody : HttpBody)
    (c : chatCompletionProcessor) :
  costs (ProcessRequestBody rawBody c).2 = costs c.
Proof.
  unfold ProcessRequestBody, parseOpenAIChatCompletionBody, selectTranslator.
  run. repeat (case_match; simplify_eq/=; run); reflexivity.
Qed.

Lemma ProcessResponseHeaders_costs (headers : HeaderMap)
    (c : chatCompletionProcessor) :
  costs (ProcessResponseHeaders headers c).2 = costs c.
Proof.
  unfold ProcessResponseHeaders. run.
  destruct (String.eqb (index (headersToMap headers) "content-encoding") "");
    simpl; destruct (translator c) as [t|]; simpl; try reflexivity;
    destruct (ResponseHeaders t (headersToMap headers))
      as [[headerMutation|err] t']; reflexivity.
Qed.

(** C3, as the code has it.  In a stream that starts with the counters at
    zero, after each call of [ProcessResponseBody] each component of the
    accumulated token usage is the sum, reduced modulo 2^32 (the counters
    are 32-bit unsigned integers), of that component of the deltas the
    translator returned for the body events handled so far; and a
    component does not decrease over a call as long as its sum still fits
    in 32 bits. *)
Theorem C3_token_usage_sum_modulo_2_32 (bodies : list HttpBody)
    (c : chatCompletionProcessor) (n : nat)
    (call : outcome ProcessingResponse * chatCompletionProcessor) :
  costs c = mkLLMTokenUsage 0 0 0 →
  responseBodyCalls bodies c !! n = Some call →
  let deltas := take (S n) (responseBodyDeltas bodies c) in
  let before := stateBefore c (responseBodyCalls bodies c) n in
  costs call.2
  = mkLLMTokenUsage (sumN (InputTokens <$> deltas) mod 2 ^ 32)
      (sumN (OutputTokens <$> deltas) mod 2 ^ 32)
      (sumN (TotalTokens <$> deltas) mod 2 ^ 32)
  ∧ (sumN (InputTokens <$> deltas) ≤ 2 ^ 32 - 1 →
     InputTokens (costs before) ≤ InputTokens (costs call.2))
  ∧ (sumN (OutputTokens <$> deltas) ≤ 2 ^ 32 - 1 →
     OutputTokens (costs before) ≤ OutputTokens (costs call.2))
  ∧ (sumN (TotalTokens <$> deltas) ≤ 2 ^ 32 - 1 →
     TotalTokens (costs before) ≤ TotalTokens (costs call.2)).
Proof.
  intros Hzero Hcall deltas before.
  assert (∀ f : LLMTokenUsage → N,
            f (mkLLMTokenUsage 0 0 0) = 0 →
            (∀ c tokenUsage, f (costs (accumulated c tokenUsage))
                             = add32 (f (costs c)) (f tokenUsage)) →
            f (costs call.2) = sumN (f <$> deltas) mod 2 ^ 32
            ∧ (sumN (f <$> deltas) ≤ 2 ^ 32 - 1 →
               f (costs before) ≤ f (costs call.2))) as Hcomponent.
  { intros f f_zero f_accumulated.
    assert (f (costs c) = 0) as Hf by (rewrite Hzero; exact f_zero).
    split.
    - rewrite (responseBodyCalls_component f f_zero f_accumulated
                 bodies c n call); [|rewrite Hf; reflexivity|exact Hcall].
      rewrite Hf, N.add_0_l. reflexivity.
    - apply (responseBodyCalls_component_monotone f f_zero f_accumulated);
        assumption. }
  destruct (Hcomponent InputTokens) as [Hinput Hinput_le];
    [reflexivity|reflexivity|].
  destruct (Hcomponent OutputTokens) as [Houtput Houtput_le];
    [reflexivity|reflexivity|].
  destruct (Hcomponent TotalTokens) as [Htotal Htotal_le];
    [reflexivity|reflexivity|].
  split; [|auto].
  rewrite <- Hinput, <- Houtput, <- Htotal.
  destruct (costs call.2); reflexivity.
Qed.

(** *** Dynamic metadata *)

Lemma evaluated_Forall2 (c : chatCompletionProcessor)
    (rcs : list processorConfigRequestCost) (values : list N) :
  Forall2 (λ rc cost, requestCost c rc = Ok cost) rcs values →
  evaluated c rcs = (zip rcs values, None).
Proof.
  induction 1 as [|rc cost rcs values Hrc _ IH]; simpl; [reflexivity|].
  rewrite Hrc, IH. reflexivity.
Qed.

Lemma evaluated_None (c : chatCompletionProcessor)
    (rcs : list processorConfigRequestCost) :
  (evaluated c rcs).2 = None →
  Forall2 (λ rc cost, requestCost c rc = Ok cost) rcs (evaluated c rcs).1.*2
  ∧ (evaluated c rcs).1 = zip rcs (evaluated c rcs).1.*2.
Proof.
  induction rcs as [|rc rcs IH]; simpl; [split; [constructor|reflexivity]|].
  destruct (requestCost c rc) as [cost|err] eqn:Hrc; [|discriminate].
  destruct (evaluated c rcs) as [done err]; simpl in *.
  intros ->. destruct IH as [Hall Hzip]; [reflexivity|].
  split; [constructor; assumption|]. cbn [fmap list_fmap snd zip zip_with].
  f_equal. exact Hzip.
Qed.

(** Where [requestCosts_loop] stops: the rules before the first one
    without a cost all have one, and that rule has the error. *)
Lemma evaluated_Some (c : chatCompletionProcessor)
    (rcs : list processorConfigRequestCost) (err : error) :
  (evaluated c rcs).2 = Some err →
  ∃ rc, rcs !! length (evaluated c rcs).1 = Some rc
        ∧ requestCost c rc = Err err.
Proof.
  induction rcs as [|rc rcs IH]; simpl; [discriminate|].
  destruct (requestCost c rc) as [cost|err'] eqn:Hrc.
  - destruct (evaluated c rcs) as [done err'']; simpl in *. exact IH.
  - simpl. intros [= ->]. exists rc. split; [reflexivity|exact Hrc].
Qed.

Lemma evaluated_lookup (c : chatCompletionProcessor)
    (rcs : list processorConfigRequestCost) :
  ∀ (i : nat) (rv : processorConfigRequestCost * N),
    (evaluated c rcs).1 !! i = Some rv →
    rcs !! i = Some rv.1 ∧ requestCost c rv.1 = Ok rv.2.
Proof.
  induction rcs as [|rc rcs IH]; intros i rv; simpl; [discriminate|].
  destruct (requestCost c rc) as [cost|err] eqn:Hrc; [|discriminate].
  destruct (evaluated c rcs) as [done err]; simpl in *.
  destruct i as [|i]; simpl.
  - intros [= <-]. split; [reflexivity|exact Hrc].
  - apply IH.
Qed.

Lemma costFields_lookup (done : list (processorConfigRequestCost * N)) :
  ∀ (metadata : gmap string Value) (k : string) (x : Value),
    costFields metadata done !! k = Some x →
    metadata !! k = Some x
    ∨ ∃ rv, rv ∈ done ∧ MetadataKey rv.1 = k ∧ x = NumberValue rv.2.
Proof.
  induction done as [|rv done IH]; intros metadata k x; simpl; [auto|].
  intros Hk. apply IH in Hk as [Hk|(rv' & Hin & Hkey & Hx)].
  - destruct (decide (MetadataKey rv.1 = k)) as [Heq|Hne].
    + rewrite Heq, lookup_insert_eq in Hk. injection Hk as <-.
      right. exists rv. split; [left|auto].
    + rewrite lookup_insert_ne in Hk by exact Hne. auto.
  - right. exists rv'. split; [right; exact Hin|auto].
Qed.

Lemma costFields_is_Some (done : list (processorConfigRequestCost * N)) :
  ∀ (metadata : gmap string Value) (k : string),
    is_Some (metadata !! k) ∨ (∃ rv, rv ∈ done ∧ MetadataKey rv.1 = k) →
    is_Some (costFields metadata done !! k).
Proof.
  induction done as [|rv done IH]; intros metadata k; simpl.
  - intros [Hk|(rv & Hin & _)]; [exact Hk|]. inversion Hin.
  - intros Hk. apply IH.
    destruct (decide (MetadataKey rv.1 = k)) as [Heq|Hne].
    + left. rewrite Heq, lookup_insert_eq. eauto.
    + rewrite lookup_insert_ne by exact Hne.
      destruct Hk as [Hk|(rv' & Hin & Hkey)]; [auto|].
      apply elem_of_cons in Hin as [->|Hin]; [contradiction|eauto].
  Qed.

(** A key holds the cost of the last rule that writes it. *)
Lemma costFields_last (done done' : list (processorConfigRequestCost * N))
    (rv : processorConfigRequestCost * N) (metadata : gmap string Value) :
  (∀ rv', rv' ∈ done' → MetadataKey rv'.1 ≠ MetadataKey rv.1) →
  costFields metadata (done ++ rv :: done') !! MetadataKey rv.1
  = Some (NumberValue rv.2).
Proof.
  intros Hlast. unfold costFields. rewrite foldl_app. simpl.
  generalize (foldl (λ m rv0, <[MetadataKey rv0.1:=NumberValue rv0.2]> m)
                metadata done).
  intros m.
  assert (<[MetadataKey rv.1:=NumberValue rv.2]> m !! MetadataKey rv.1
          = Some (NumberValue rv.2)) as Hm by apply lookup_insert_eq.
  revert Hm. generalize (<[MetadataKey rv.1:=NumberValue rv.2]> m).
  induction done' as [|rv' done' IH]; intros m' Hm; simpl; [exact Hm|].
  apply IH.
  - intros rv'' Hin. apply Hlast. right. exact Hin.
  - rewrite lookup_insert_ne; [exact Hm|]. apply Hlast. left.
Qed.

Lemma requestCost_ext (c c' : chatCompletionProcessor)
    (rc : processorConfigRequestCost) :
  costs c = costs c' → requestHeaders c = requestHeaders c' →
  config c = config c' →
  requestCost c rc = requestCost c' rc.
Proof.
  intros Hcosts Hheaders Hconfig. unfold requestCost.
  rewrite Hcosts, Hheaders, Hconfig. reflexivity.
Qed.

Lemma metered_accumulated_ext (c : chatCompletionProcessor)
    (t : OpenAIChatCompletionTranslator) (tokenUsage : LLMTokenUsage) :
  let c1 := metered (accumulated (set_translator (Some t) c) tokenUsage)
              tokenUsage in
  costs c1 = costs (accumulated c tokenUsage)
  ∧ requestHeaders c1 = requestHeaders (accumulated c tokenUsage)
  ∧ config c1 = config (accumulated c tokenUsage)
  ∧ logger c1 = logger c.
Proof. unfold metered. simpl. destruct (stream c); auto. Qed.

Lemma translated_Some (c : chatCompletionProcessor) (body : HttpBody)
    (r : result (option HeaderMutation * option BodyMutation
                 * LLMTokenUsage)) :
  translated c body = Some r ↔
  ∃ t br, translator c = Some t ∧ bodyReader c body = Ok br
          ∧ (ResponseBody t (responseHeaders c) br (EndOfStream body)).1 = r.
Proof.
  unfold translated. split.
  - destruct (translator c) as [t|]; [|discriminate].
    destruct (bodyReader c body) as [br|]; [|discriminate].
    intros [= <-]. eauto.
  - intros (t & br & -> & -> & <-). reflexivity.
Qed.

(** When a reply carries dynamic metadata, and which. *)
Lemma ProcessResponseBody_attached (c : chatCompletionProcessor)
    (body : HttpBody) (md : Struct) :
  (∃ resp c', ProcessResponseBody body c = (Return (Ok resp), c')
              ∧ DynamicMetadata resp = Some md)
  ↔ EndOfStream body = true
    ∧ requestCosts (config c) ≠ []
    ∧ ∃ headerMutation bodyMutation tokenUsage values,
        translated c body
        = Some (Ok (headerMutation, bodyMutation, tokenUsage))
        ∧ Forall2 (λ rc cost,
                     requestCost (accumulated c tokenUsage) rc = Ok cost)
            (requestCosts (config c)) values
        ∧ md = {[ metadataNamespace (config c)
                  := StructValue
                       (costFields ∅ (zip (requestCosts (config c)) values))
               ]}.
Proof.
  split.
  - intros (resp & c' & Hcall & Hmd).
    destruct (bodyReader c body) as [br|err] eqn:Hbr.
    2: { rewrite (ProcessResponseBody_reader_error _ _ _ Hbr) in Hcall.
         discriminate. }
    destruct (translator c) as [t|] eqn:Ht.
    2: { rewrite (ProcessResponseBody_no_translator _ _ _ Hbr Ht) in Hcall.
         injection Hcall as <- _. discriminate. }
    destruct (ResponseBody t (responseHeaders c) br (EndOfStream body))
      as [[[[headerMutation bodyMutation] tokenUsage]|err] t'] eqn:Htr.
    2: { rewrite (ProcessResponseBody_translator_error _ _ _ _ _ _ Hbr Ht Htr)
           in Hcall. discriminate. }
    rewrite (ProcessResponseBody_translated _ _ _ _ _ _ _ _ Hbr Ht Htr)
      in Hcall.
    destruct (metered_accumulated_ext c t' tokenUsage)
      as (Hcosts & Hheaders & Hconfig & _).
    rewrite (evaluated_ext _ _ _ Hcosts Hheaders Hconfig) in Hcall.
    destruct (EndOfStream body && _) eqn:Hfinal.
    2: { injection Hcall as <- _. discriminate. }
    apply andb_prop in Hfinal as [Heos Hlen]. apply Nat.ltb_lt in Hlen.
    destruct (evaluated (accumulated c tokenUsage) _).2 as [err|] eqn:Herr;
      [discriminate|].
    injection Hcall as <- _. simpl in Hmd. injection Hmd as <-.
    apply evaluated_None in Herr as [Hall Hzip].
    split; [exact Heos|]. split.
    { intros Hnil. rewrite Hnil in Hlen. simpl in Hlen. lia. }
    exists headerMutation, bodyMutation, tokenUsage. eexists.
    split; [|split; [exact Hall|]].
    + apply translated_Some. exists t, br. rewrite Htr. auto.
    + rewrite <- Hzip. reflexivity.
  - intros (Heos & Hrules & headerMutation & bodyMutation & tokenUsage
            & values & Htranslated & Hall & ->).
    apply translated_Some in Htranslated as (t & br & Ht & Hbr & Htr).
    destruct (ResponseBody t (responseHeaders c) br (EndOfStream body))
      as [r t'] eqn:Hcall. simpl in Htr. subst r.
    rewrite (ProcessResponseBody_translated _ _ _ _ _ _ _ _ Hbr Ht Hcall).
    destruct (metered_accumulated_ext c t' tokenUsage)
      as (Hcosts & Hheaders & Hconfig & _).
    rewrite (evaluated_ext _ _ _ Hcosts Hheaders Hconfig).
    rewrite (evaluated_Forall2 _ _ _ Hall), Heos.
    destruct (requestCosts (config c)); [contradiction|]. simpl.
    eexists _, _. split; reflexivity.
Qed.

(** The map built from the rules and their costs. *)
Lemma costFields_zip (rcs : list processorConfigRequestCost)
    (values : list N) :
  length rcs = length values →
  let fields := costFields ∅ (zip rcs values) in
  (fields = ∅ ↔ rcs = [])
  ∧ (∀ k, is_Some (fields !! k) ↔ ∃ rc, rc ∈ rcs ∧ MetadataKey rc = k)
  ∧ (∀ i rc cost,
       rcs !! i = Some rc → values !! i = Some cost →
       (∀ j rc', (i < j)%nat → rcs !! j = Some rc' →
                 MetadataKey rc' ≠ MetadataKey rc) →
       fields !! MetadataKey rc = Some (NumberValue cost)).
Proof.
  intros Hlen fields. split; [|split].
  - unfold fields. rewrite costFields_empty_iff.
    destruct rcs, values; simpl in *; split; congruence.
  - intros k. split.
    + intros [x Hx]. apply costFields_lookup in Hx as [Hx|(rv & Hin & Hk & _)].
      * rewrite lookup_empty in Hx. discriminate.
      * exists rv.1. split; [|exact Hk].
        destruct rv. eapply elem_of_zip_l, Hin.
    + intros (rc & Hin & Hk). apply costFields_is_Some. right.
      apply list_elem_of_lookup in Hin as [i Hi].
      destruct (lookup_lt_is_Some_2 values i) as [cost Hcost].
      { rewrite <- Hlen. eapply lookup_lt_Some, Hi. }
      exists (rc, cost). split; [|exact Hk].
      apply list_elem_of_lookup. exists i.
      apply lookup_zip_with_Some. eauto.
  - intros i rc cost Hrc Hcost Hlast.
    assert (zip rcs values !! i = Some (rc, cost)) as Hi
      by (apply lookup_zip_with_Some; eauto).
    unfold fields. rewrite <- (take_drop_middle _ _ _ Hi).
    apply (costFields_last _ _ (rc, cost)).
    intros rv' Hin. apply list_elem_of_lookup in Hin as [j Hj].
    rewrite lookup_drop in Hj.
    apply lookup_zip_with_Some in Hj as (rc' & cost' & -> & Hrc' & _).
    apply (Hlast (S i + j)%nat); [lia|exact Hrc'].
Qed.

(** C2.  The reply to a response-body event carries dynamic metadata [md]
    exactly when the event is the last of the stream, at least one
    request-cost rule is configured, the event reached the cost computation
    (the translator is bound and returned a token usage) and every rule got
    a cost; [md] is then the one-entry struct that maps the metadata
    namespace to the struct of the costs.  That inner struct is not empty,
    its keys are the metadata keys of the rules, and a key holds the cost
    of the last rule that writes it.  With no rule, the inner map is empty
    and [maybeBuildDynamicMetadata] returns no struct at all. *)
Theorem C2_dynamic_metadata_attached (c : chatCompletionProcessor)
    (body : HttpBody) (md : Struct) :
  ((∃ resp c', ProcessResponseBody body c = (Return (Ok resp), c')
               ∧ DynamicMetadata resp = Some md)
   ↔ EndOfStream body = true
     ∧ requestCosts (config c) ≠ []
     ∧ ∃ headerMutation bodyMutation tokenUsage values,
         translated c body
         = Some (Ok (headerMutation, bodyMutation, tokenUsage))
         ∧ Forall2 (λ rc cost,
                      requestCost (accumulated c tokenUsage) rc = Ok cost)
             (requestCosts (config c)) values
         ∧ md = {[ metadataNamespace (config c)
                   := StructValue
                        (costFields ∅ (zip (requestCosts (config c)) values))
                ]})
  ∧ (∀ (rcs : list processorConfigRequestCost) (values : list N),
       length rcs = length values →
       let fields := costFields ∅ (zip rcs values) in
       (fields = ∅ ↔ rcs = [])
       ∧ (∀ k, is_Some (fields !! k) ↔ ∃ rc, rc ∈ rcs ∧ MetadataKey rc = k)
       ∧ (∀ i rc cost,
            rcs !! i = Some rc → values !! i = Some cost →
            (∀ j rc', (i < j)%nat → rcs !! j = Some rc' →
                      MetadataKey rc' ≠ MetadataKey rc) →
            fields !! MetadataKey rc = Some (NumberValue cost)))
  ∧ (requestCosts (config c) = [] →
     maybeBuildDynamicMetadata c = (Return (Ok None), c)).
Proof.
  split; [apply ProcessResponseBody_attached|].
  split; [apply costFields_zip|].
  intros Hnone. rewrite maybeBuildDynamicMetadata_eq, Hnone. simpl.
  rewrite app_nil_r, set_logger_id. reflexivity.
Qed.

(** *** The cost of an expression rule *)

Lemma evaluated_reached (c : chatCompletionProcessor)
    (rcs : list processorConfigRequestCost) :
  ∀ (i : nat) (rc : processorConfigRequestCost),
    rcs !! i = Some rc →
    (∀ j rc', (j < i)%nat → rcs !! j = Some rc' →
              ∃ cost, requestCost c rc' = Ok cost) →
    match requestCost c rc with
    | Ok cost => (evaluated c rcs).1 !! i = Some (rc, cost)
    | Err err => (evaluated c rcs).2 = Some err
                 ∧ length (evaluated c rcs).1 = i
    end.
Proof.
  induction rcs as [|rc0 rcs IH]; intros i rc Hrc Hbefore; [discriminate|].
  destruct i as [|i]; simpl.
  - injection Hrc as ->.
    destruct (requestCost c rc) as [cost|err]; [|auto].
    destruct (evaluated c rcs); reflexivity.
  - destruct (Hbefore O rc0) as [cost0 ->]; [lia|reflexivity|].
    specialize (IH i rc Hrc).
    destruct (evaluated c rcs) as [done err0]; simpl in *.
    assert (∀ j rc', (j < i)%nat → rcs !! j = Some rc' →
                     ∃ cost, requestCost c rc' = Ok cost) as Hbefore'.
    { intros j rc' Hj Hrc'. apply (Hbefore (S j)); [lia|exact Hrc']. }
    specialize (IH Hbefore').
    destruct (requestCost c rc); [exact IH|].
    destruct IH as [-> ->]. auto.
Qed.

(** The last body event of a stream with request-cost rules, once
    translated: the reply or the error, and what is logged. *)
Lemma ProcessResponseBody_final (c : chatCompletionProcessor)
    (body : HttpBody) (headerMutation : option HeaderMutation)
    (bodyMutation : option BodyMutation) (tokenUsage : LLMTokenUsage) :
  EndOfStream body = true →
  requestCosts (config c) ≠ [] →
  translated c body = Some (Ok (headerMutation, bodyMutation, tokenUsage)) →
  let ev := evaluated (accumulated c tokenUsage) (requestCosts (config c)) in
  (ProcessResponseBody body c).1
  = match ev.2 with
    | Some err =>
        Return (Err (Errorf_w "failed to build dynamic metadata: " err))
    | None =>
        Return (Ok (bodyReply headerMutation bodyMutation
                      (Some {[ metadataNamespace (config c)
                               := StructValue (costFields ∅ ev.1) ]})))
    end
  ∧ logger (ProcessResponseBody body c).2
    = logger c ++ (costRecord <$> ev.1).
Proof.
  intros Heos Hrules Htranslated ev.
  apply translated_Some in Htranslated as (t & br & Ht & Hbr & Htr).
  destruct (ResponseBody t (responseHeaders c) br (EndOfStream body))
    as [r t'] eqn:Hcall. simpl in Htr. subst r.
  rewrite (ProcessResponseBody_translated _ _ _ _ _ _ _ _ Hbr Ht Hcall).
  destruct (metered_accumulated_ext c t' tokenUsage)
    as (Hcosts & Hheaders & Hconfig & Hlogger).
  rewrite (evaluated_ext _ _ _ Hcosts Hheaders Hconfig), Hlogger, Heos.
  fold ev.
  destruct (requestCosts (config c)) eqn:Hrcs; [contradiction|].
  cbn [length Nat.ltb Nat.leb andb].
  destruct ev.2; split; reflexivity.
Qed.

Lemma requestCost_CEL (c : chatCompletionProcessor)
    (rc : processorConfigRequestCost) :
  Type_ rc = LLMRequestCostTypeCEL →
  requestCost c rc
  = match EvaluateProgram (celProg rc)
            (index (requestHeaders c) (modelNameHeaderKey (config c)))
            (index (requestHeaders c) (selectedBackendHeaderKey (config c)))
            (InputTokens (costs c)) (OutputTokens (costs c))
            (TotalTokens (costs c)) with
    | Err err => Err (Errorf_w "failed to evaluate CEL expression: " err)
    | Ok costU64 => Ok (uint32_of costU64)
    end.
Proof. intros Htype. unfold requestCost. rewrite Htype. reflexivity. Qed.

(** In a reply to the last body event, every rule has its cost: it is in
    the log at the rule's position and, unless a later rule writes the same
    key, in the metadata under the rule's key. *)
Lemma ProcessResponseBody_final_rule (c c' : chatCompletionProcessor)
    (body : HttpBody) (headerMutation : option HeaderMutation)
    (bodyMutation : option BodyMutation) (tokenUsage : LLMTokenUsage)
    (resp : ProcessingResponse) (i : nat) (rc : processorConfigRequestCost) :
  EndOfStream body = true →
  translated c body = Some (Ok (headerMutation, bodyMutation, tokenUsage)) →
  requestCosts (config c) !! i = Some rc →
  ProcessResponseBody body c = (Return (Ok resp), c') →
  ∃ cost,
    requestCost (accumulated c tokenUsage) rc = Ok cost
    ∧ logger c' !! (length (logger c) + i)%nat
      = Some (Info_setting_request_cost_metadata (Type_ rc) cost
                (MetadataKey rc))
    ∧ ((∀ j rc', (i < j)%nat → requestCosts (config c) !! j = Some rc' →
                 MetadataKey rc' ≠ MetadataKey rc) →
       ∃ fields,
         DynamicMetadata resp
         = Some {[ metadataNamespace (config c) := StructValue fields ]}
         ∧ fields !! MetadataKey rc = Some (NumberValue cost)).
Proof.
  intros Heos Htranslated Hrc Hcall.
  assert (requestCosts (config c) ≠ []) as Hrules
    by (intros Hnil; rewrite Hnil in Hrc; discriminate).
  destruct (ProcessResponseBody_final c body _ _ _ Heos Hrules Htranslated)
    as [Hout Hlog].
  rewrite Hcall in Hout, Hlog. cbn [fst snd] in Hout, Hlog.
  set (ev := evaluated (accumulated c tokenUsage) (requestCosts (config c)))
    in *.
  destruct ev.2 as [err|] eqn:Herr; [discriminate|].
  injection Hout as ->.
  pose proof (evaluated_length _ _ Herr) as Hlen. fold ev in Hlen.
  destruct (lookup_lt_is_Some_2 ev.1 i) as [rv Hrv].
  { rewrite Hlen. eapply lookup_lt_Some, Hrc. }
  destruct (evaluated_lookup _ _ _ _ Hrv) as [Hrc' Hcost].
  rewrite Hrc in Hrc'. injection Hrc' as Hrc'.
  exists rv.2. rewrite Hrc'. split; [exact Hcost|]. split.
  - rewrite Hlog, lookup_app_r by lia.
    replace (length (logger c) + i - length (logger c))%nat with i by lia.
    rewrite list_lookup_fmap, Hrv. reflexivity.
  - intros Hlast. eexists. split; [reflexivity|].
    rewrite <- (take_drop_middle _ _ _ Hrv).
    apply (costFields_last _ _ rv).
    intros rv' Hin. apply list_elem_of_lookup in Hin as [j Hj].
    rewrite lookup_drop in Hj.
    destruct (evaluated_lookup _ _ _ _ Hj) as [Hj' _].
    apply (Hlast (S i + j)%nat); [lia|exact Hj'].
Qed.

(** C5, as the code has it.  In a reply to the last body event, the cost of
    an expression rule whose program evaluates to [costU64] is
    [costU64 mod 2^32], the conversion to a 32-bit unsigned integer: that
    is the value logged for the rule and, unless a later rule writes the
    same key, the number under the rule's key in the dynamic metadata.  A
    result above the 32-bit range is thereby reduced modulo 2^32 and not
    replaced by the 32-bit maximum. *)
Theorem C5_expression_cost_modulo_2_32 (c c' : chatCompletionProcessor)
    (body : HttpBody) (headerMutation : option HeaderMutation)
    (bodyMutation : option BodyMutation) (tokenUsage : LLMTokenUsage)
    (resp : ProcessingResponse) (i : nat) (rc : processorConfigRequestCost)
    (costU64 : N) :
  EndOfStream body = true →
  translated c body = Some (Ok (headerMutation, bodyMutation, tokenUsage)) →
  requestCosts (config c) !! i = Some rc →
  Type_ rc = LLMRequestCostTypeCEL →
  EvaluateProgram (celProg rc)
    (index (requestHeaders c) (modelNameHeaderKey (config c)))
    (index (requestHeaders c) (selectedBackendHeaderKey (config c)))
    (add32 (InputTokens (costs c)) (InputTokens tokenUsage))
    (add32 (OutputTokens (costs c)) (OutputTokens tokenUsage))
    (add32 (TotalTokens (costs c)) (TotalTokens tokenUsage))
  = Ok costU64 →
  ProcessResponseBody body c = (Return (Ok resp), c') →
  logger c' !! (length (logger c) + i)%nat
  = Some (Info_setting_request_cost_metadata LLMRequestCostTypeCEL
            (costU64 mod 2 ^ 32) (MetadataKey rc))
  ∧ ((∀ j rc', (i < j)%nat → requestCosts (config c) !! j = Some rc' →
               MetadataKey rc' ≠ MetadataKey rc) →
     ∃ fields,
       DynamicMetadata resp
       = Some {[ metadataNamespace (config c) := StructValue fields ]}
       ∧ fields !! MetadataKey rc = Some (NumberValue (costU64 mod 2 ^ 32))).
Proof.
  intros Heos Htranslated Hrc Htype Heval Hcall.
  destruct (ProcessResponseBody_final_rule _ _ _ _ _ _ _ _ _
              Heos Htranslated Hrc Hcall) as (cost & Hcost & Hlog & Hmd).
  rewrite (requestCost_CEL _ _ Htype) in Hcost. simpl in Hcost.
  rewrite Heval in Hcost. injection Hcost as <-.
  rewrite Htype in Hlog. split; [exact Hlog|exact Hmd].
Qed.


(** C4, as the code has it.  On the last body event, when the evaluation of
    an expression rule that the loop reaches fails, nothing is logged for
    the rule (the log only grows by the records of the rules before it),
    [ProcessResponseBody] returns the evaluator's error, wrapped twice,
    instead of a reply, so that no dynamic metadata is emitted at all, and
    the request completion is recorded as a failure. *)
Theorem C4_expression_failure_is_returned (c : chatCompletionProcessor)
    (body : HttpBody) (headerMutation : option HeaderMutation)
    (bodyMutation : option BodyMutation) (tokenUsage : LLMTokenUsage)
    (i : nat) (rc : processorConfigRequestCost) (err : error) :
  EndOfStream body = true →
  translated c body = Some (Ok (headerMutation, bodyMutation, tokenUsage)) →
  requestCosts (config c) !! i = Some rc →
  Type_ rc = LLMRequestCostTypeCEL →
  (∀ j rc', (j < i)%nat → requestCosts (config c) !! j = Some rc' →
            ∃ cost, requestCost (accumulated c tokenUsage) rc' = Ok cost) →
  EvaluateProgram (celProg rc)
    (index (requestHeaders c) (modelNameHeaderKey (config c)))
    (index (requestHeaders c) (selectedBackendHeaderKey (config c)))
    (add32 (InputTokens (costs c)) (InputTokens tokenUsage))
    (add32 (OutputTokens (costs c)) (OutputTokens tokenUsage))
    (add32 (TotalTokens (costs c)) (TotalTokens tokenUsage))
  = Err err →
  (ProcessResponseBody body c).1
  = Return (Err (Errorf_w "failed to build dynamic metadata: "
                   (Errorf_w "failed to evaluate CEL expression: " err)))
  ∧ (∃ records, logger (ProcessResponseBody body c).2 = logger c ++ records
                ∧ length records = i)
  ∧ completions (metrics (ProcessResponseBody body c).2)
    = completions (metrics c) ++ [false].
Proof.
  intros Heos Htranslated Hrc Htype Hbefore Heval.
  assert (requestCosts (config c) ≠ []) as Hrules
    by (intros Hnil; rewrite Hnil in Hrc; discriminate).
  destruct (ProcessResponseBody_final c body _ _ _ Heos Hrules Htranslated)
    as [Hout Hlog].
  pose proof (evaluated_reached _ _ _ _ Hrc Hbefore) as Hreached.
  rewrite (requestCost_CEL _ _ Htype) in Hreached. simpl in Hreached.
  rewrite Heval in Hreached. destruct Hreached as [Herr Hlen].
  rewrite Herr in Hout.
  split; [exact Hout|]. split.
  - eexists. split; [exact Hlog|]. rewrite length_fmap. exact Hlen.
  - rewrite ProcessResponseBody_completions, Hout. reflexivity.
Qed.

(** *** The response-headers event *)

Lemma ProcessResponseHeaders_mode (c c' : chatCompletionProcessor)
    (t : OpenAIChatCompletionTranslator) (headers : HeaderMap)
    (reply : ProcessingResponse) :
  translator c = Some t →
  ProcessResponseHeaders headers c = (Return (Ok reply), c') →
  ModeOverride reply
  = if stream c && String.eqb (index (headersToMap headers) ":status") "200"
    then Some (mkProcessingMode ProcessingMode_STREAMED)
    else None.
Proof.
  intros Ht. unfold ProcessResponseHeaders. run.
  destruct (String.eqb (index (headersToMap headers) "content-encoding") "");
    simpl; rewrite Ht;
    destruct (ResponseHeaders t (headersToMap headers))
      as [[headerMutation|err] t'];
    simpl; intros [= <- _]; reflexivity.
Qed.

(** *** The request-body event, once routed *)



Lemma ProcessRequestBody_panic (rawBody : HttpBody)
    (c : chatCompletionProcessor) (body : ChatCompletionRequest)
    (b : Backend) (lbRef : positive) :
  json_Unmarshal (Body rawBody) = Ok body →
  Calculate (router (config c)) (routedHeaders c body) = Ok b →
  DynamicLoadBalancing b = Some lbRef →
  dynamicLoadBalancers (config c) !! lbRef = None →
  (ProcessRequestBody rawBody c).1
  = Panic "BUG: failed to find dynamic load balancer".
Proof.
  intros Hjson Hroute Hlb Hlookup.
  unfold ProcessRequestBody, parseOpenAIChatCompletionBody, routedHeaders
    in *.
  rewrite Hjson. run. rewrite Hroute. simpl. rewrite Hlb, Hlookup.
  reflexivity.
Qed.

(** A routed request whose load balancer, if it needs one, is configured:
    the call returns an error, or a body response that clears the route
    cache; the header mutation handed to the auth handler of the backend,
    and returned as it is when there is none, sets the two headers. *)
Lemma ProcessRequestBody_routed (rawBody : HttpBody)
    (c : chatCompletionProcessor) (body : ChatCompletionRequest)
    (b : Backend) :
  json_Unmarshal (Body rawBody) = Ok body →
  Calculate (router (config c)) (routedHeaders c body) = Ok b →
  (∀ lbRef, DynamicLoadBalancing b = Some lbRef →
            is_Some (dynamicLoadBalancers (config c) !! lbRef)) →
  (∃ err, (ProcessRequestBody rawBody c).1 = Return (Err err))
  ∨ ∃ hm0 hm bm b',
      (ProcessRequestBody rawBody c).1 = Return (Ok (routedReply hm bm))
      ∧ stream (ProcessRequestBody rawBody c).2 = Stream body
      ∧ is_Some (translator (ProcessRequestBody rawBody c).2)
      ∧ mkHeaderValueOption
          (mkHeaderValue (modelNameHeaderKey (config c)) (Model body))
        ∈ SetHeaders hm0
      ∧ mkHeaderValueOption
          (mkHeaderValue (selectedBackendHeaderKey (config c))
             (selectedBackendValue b))
        ∈ SetHeaders hm0
      ∧ match backendAuthHandlers (config c) !! Backend_Name b' with
        | None => hm = hm0
        | Some h => ∃ rh bm0, hm = (Do h rh hm0 bm0).2.1.2
        end.
Proof.
  intros Hjson Hroute Hlbs.
  unfold ProcessRequestBody, parseOpenAIChatCompletionBody, routedHeaders,
    selectedBackendValue, routedReply in *.
  rewrite Hjson. run. rewrite Hroute. simpl.
  destruct (DynamicLoadBalancing b) as [lbRef|] eqn:Hlb.
  1: destruct (Hlbs lbRef eq_refl) as [lb Hlookup]; rewrite Hlookup; simpl;
     destruct (SelectChatCompletionsEndpoint lb _ _)
       as [[[b' headers]|err] sink]; simpl; [|left; eexists; reflexivity].
  2: pose (b' := b).
  all: unfold selectTranslator; run.
  all: destruct (translator c) as [t|] eqn:Ht; simpl; rewrite ?Ht; simpl;
    [|destruct (Name (Schema _)); simpl].
  all: repeat match goal with
         | |- context [RequestBody ?t ?rb] =>
             destruct (RequestBody t rb) as [[[? ?]|?] ?]; simpl
         end.
  all: try (left; eexists; reflexivity).
  all: destruct (backendAuthHandlers (config c) !! Backend_Name b')
         as [authHandler|] eqn:Hauth; try subst b'; rewrite ?Hauth; simpl.
  all: repeat match goal with
         | |- context [Do ?h ?rh ?hm ?bm] =>
             destruct (Do h rh hm bm) as [[[]|?] [[? ?] ?]] eqn:HDo; simpl
         end.
  all: try (left; eexists; reflexivity).
  all: right.
  all: match goal with
       | HDo : Do _ _ ?hm0 _ = _ |- _ => exists hm0
       | |- context [Return (Ok (mkProcessingResponse
               (ProcessingResponse_RequestBody
                  (mkBodyResponse (Some (mkCommonResponse (Some ?hm0) _ _))))
               _ _))] => exists hm0
       end.
  all: match goal with
       | Hauth : backendAuthHandlers _ !! Backend_Name ?b' = _ |- _ =>
           eexists _, _, b'; rewrite Hauth
       end.
  all: split; [reflexivity|]; split; [reflexivity|]; split; [eauto|].
  all: split; [simpl; set_solver|]; split; [simpl; set_solver|].
  all: try reflexivity.
  all: eexists _, _; rewrite HDo; reflexivity.
Qed.

Lemma ProcessRequestBody_routed_Ok (rawBody : HttpBody)
    (c c' : chatCompletionProcessor) (body : ChatCompletionRequest)
    (b : Backend) (resp : ProcessingResponse) :
  json_Unmarshal (Body rawBody) = Ok body →
  Calculate (router (config c)) (routedHeaders c body) = Ok b →
  ProcessRequestBody rawBody c = (Return (Ok resp), c') →
  ∃ hm0 hm bm b',
    resp = routedReply hm bm
    ∧ stream c' = Stream body
    ∧ is_Some (translator c')
    ∧ mkHeaderValueOption
        (mkHeaderValue (modelNameHeaderKey (config c)) (Model body))
      ∈ SetHeaders hm0
    ∧ mkHeaderValueOption
        (mkHeaderValue (selectedBackendHeaderKey (config c))
           (selectedBackendValue b))
      ∈ SetHeaders hm0
    ∧ match backendAuthHandlers (config c) !! Backend_Name b' with
      | None => hm = hm0
      | Some h => ∃ rh bm0, hm = (Do h rh hm0 bm0).2.1.2
      end.
Proof.
  intros Hjson Hroute Hcall.
  destruct (ProcessRequestBody_routed rawBody c body b Hjson Hroute)
    as [[err Herr]|(hm0 & hm & bm & b' & Hok & Hrest)].
  - intros lbRef Hlb.
    destruct (dynamicLoadBalancers (config c) !! lbRef) eqn:Hlookup;
      [eauto|].
    pose proof (ProcessRequestBody_panic _ _ _ _ _ Hjson Hroute Hlb Hlookup)
      as Hpanic.
    rewrite Hcall in Hpanic. discriminate.
  - rewrite Hcall in Herr. discriminate.
  - rewrite Hcall in Hok, Hrest. injection Hok as ->.
    exists hm0, hm, bm, b'. split; [reflexivity|exact Hrest].
Qed.

(** C6.  When the body parses, the router returns a backend and
    [ProcessRequestBody] returns a reply, the reply is a body response with
    [clear_route_cache] set, whose header mutation sets the model-name
    header to the parsed model and the selected-backend header to the name
    of the router's backend, or to [original_destination_cluster] when that
    backend has dynamic load balancing.  The auth handlers of the
    configuration come from outside the file; they are taken to only add
    to the headers they are asked to set. *)
Theorem C6_routed_request_sets_headers (rawBody : HttpBody)
    (c c' : chatCompletionProcessor) (body : ChatCompletionRequest)
    (b : Backend) (resp : ProcessingResponse) :
  json_Unmarshal (Body rawBody) = Ok body →
  Calculate (router (config c))
    (<[modelNameHeaderKey (config c) := Model body]> (requestHeaders c))
  = Ok b →
  (∀ name h, backendAuthHandlers (config c) !! name = Some h →
             extendsSetHeaders h) →
  ProcessRequestBody rawBody c = (Return (Ok resp), c') →
  ∃ headerMutation bodyMutation,
    resp
    = {| Response :=
           ProcessingResponse_RequestBody
             {| BodyResponse_Response :=
                  Some {| HeaderMutation_ := Some headerMutation;
                          BodyMutation_ := bodyMutation;
                          ClearRouteCache := true |} |};
         ModeOverride := None;
         DynamicMetadata := None |}
    ∧ {| Header := {| Key := modelNameHeaderKey (config c);
                      RawValue := Model body |} |}
      ∈ SetHeaders headerMutation
    ∧ {| Header :=
           {| Key := selectedBackendHeaderKey (config c);
              RawValue := match DynamicLoadBalancing b with
                          | Some _ => "original_destination_cluster"
                          | None => Backend_Name b
                          end |} |}
      ∈ SetHeaders headerMutation.
Proof.
  intros Hjson Hroute Hauth Hcall.
  destruct (ProcessRequestBody_routed_Ok _ _ _ _ _ _ Hjson Hroute Hcall)
    as (hm0 & hm & bm & b' & -> & _ & _ & Hmodel & Hbackend & Hhm).
  exists hm, bm. split; [reflexivity|].
  destruct (backendAuthHandlers (config c) !! Backend_Name b')
    as [h|] eqn:Hh.
  - destruct Hhm as (rh & bm0 & ->).
    pose proof (Hauth _ _ Hh rh hm0 bm0) as Hextends.
    split; apply Hextends; assumption.
  - subst hm. split; assumption.
Qed.

(** C7.  The reply to a response-headers event handled with a bound
    translator overrides the processing mode, setting the response body
    mode to STREAMED, exactly when the processor's stream flag is set and
    the [:status] response header is [200]; otherwise it carries no mode
    override.  The stream flag is the [stream] field of the request: a
    routed request-body event that gets a reply leaves it equal to the
    parsed body's, with the translator bound. *)
Theorem C7_streamed_mode_override :
  (∀ (c c' : chatCompletionProcessor) (t : OpenAIChatCompletionTranslator)
     (headers : HeaderMap) (reply : ProcessingResponse),
     translator c = Some t →
     ProcessResponseHeaders headers c = (Return (Ok reply), c') →
     (ModeOverride reply
      = Some {| ResponseBodyMode := ProcessingMode_STREAMED |}
      ↔ stream c = true ∧ index (headersToMap headers) ":status" = "200")
     ∧ (¬ (stream c = true ∧ index (headersToMap headers) ":status" = "200")
        → ModeOverride reply = None))
  ∧ (∀ (rawBody : HttpBody) (c c' : chatCompletionProcessor)
       (body : ChatCompletionRequest) (b : Backend)
       (resp : ProcessingResponse),
       json_Unmarshal (Body rawBody) = Ok body →
       Calculate (router (config c))
         (<[modelNameHeaderKey (config c) := Model body]> (requestHeaders c))
       = Ok b →
       ProcessRequestBody rawBody c = (Return (Ok resp), c') →
       stream c' = Stream body ∧ is_Some (translator c')).
Proof.
  split.
  - intros c c' t headers reply Ht Hcall.
    rewrite (ProcessResponseHeaders_mode _ _ _ _ _ Ht Hcall).
    destruct (stream c); simpl.
    + destruct (String.eqb_spec (index (headersToMap headers) ":status")
                  "200") as [Hstatus|Hstatus].
      * split; [tauto|]. intros Hnot. exfalso. apply Hnot. auto.
      * split; [|reflexivity]. split; [discriminate|]. tauto.
    + split; [|reflexivity]. split; [discriminate|].
      intros [? _]; discriminate.
  - intros rawBody c c' body b resp Hjson Hroute Hcall.
    destruct (ProcessRequestBody_routed_Ok _ _ _ _ _ _ Hjson Hroute Hcall)
      as (hm0 & hm & bm & b' & _ & Hstream & Htranslator & _).
    auto.
Qed.



(** ** Further properties of the processor *)

(** *** The factory *)

(** X1.  The factory builds a processor only for the OpenAI input schema: it
    then returns one that holds the configuration, request headers, logger
    and metric sink it was given, with no response headers, no content
    encoding, no translator, zero counters, and the stream flag and
    load-balancing handle unset.  For any other schema name it returns the
    error "unsupported API schema: <name>". *)
Theorem X1_factory_accepts_only_OpenAI (ccm : list MetricCall)
    (cfg : processorConfig) (requestHeaders : gmap string string)
    (logger : list LogRecord) :
  (Name (schema cfg) = APISchemaOpenAI
   ∧ ChatCompletionProcessorFactory ccm cfg requestHeaders logger
     = Ok (mkChatCompletionProcessor logger cfg requestHeaders ∅ "" None
             (mkLLMTokenUsage 0 0 0) ccm false None))
  ∨ (Name (schema cfg) ≠ APISchemaOpenAI
     ∧ ChatCompletionProcessorFactory ccm cfg requestHeaders logger
       = Err (errorString
                ("unsupported API schema: "
                 +:+ APISchemaName_string (Name (schema cfg))))).
Proof.
  unfold ChatCompletionProcessorFactory.
  destruct (Name (schema cfg)); [left|right..]; split; try reflexivity;
    discriminate.
Qed.

(** *** The request-body event: failures before a backend is known *)

(** X2.  A request body that does not parse changes nothing in the processor
    but the metric sink, which receives one request-completion failure: the
    call returns the decoder's error wrapped as "failed to parse request
    body: failed to unmarshal body: ...", nothing is logged, no model is
    recorded and the request headers are not touched. *)
Theorem X2_unparsable_body_only_records_failure (rawBody : HttpBody)
    (c : chatCompletionProcessor) (err : error) :
  json_Unmarshal (Body rawBody) = Err err →
  ProcessRequestBody rawBody c
  = (Return (Err (Errorf_w "failed to parse request body: "
                    (Errorf_w "failed to unmarshal body: " err))),
     completed false c).
Proof.
  intros Hjson. unfold ProcessRequestBody, parseOpenAIChatCompletionBody.
  rewrite Hjson. reflexivity.
Qed.

(** X3.  When the router returns an error, whichever it is, no backend is
    selected: the translator, the stream flag and the load-balancing handle
    stay as they were, the request headers have gained the model, one record
    is logged, and the metric sink receives the model and then one
    request-completion failure.  An error that is not [ErrNoMatchingRule] is
    returned wrapped as "failed to calculate route: ...". *)
Theorem X3_router_error_selects_nothing (rawBody : HttpBody)
    (c : chatCompletionProcessor) (body : ChatCompletionRequest)
    (err : error) :
  json_Unmarshal (Body rawBody) = Ok body →
  Calculate (router (config c)) (routedHeaders c body) = Err err →
  let call := ProcessRequestBody rawBody c in
  (errors_Is_ErrNoMatchingRule err = false →
   call.1 = Return (Err (Errorf_w "failed to calculate route: " err)))
  ∧ translator call.2 = translator c
  ∧ stream call.2 = stream c
  ∧ dynamicLB call.2 = dynamicLB c
  ∧ requestHeaders call.2 = routedHeaders c body
  ∧ metrics call.2
    = metrics c ++ [SetModel (Model body); RecordRequestCompletion false]
  ∧ logger call.2
    = logger c ++ [Info_processing_request_body
                     (index (requestHeaders c) ":path") (Model body)].
Proof.
  intros Hjson Hroute.
  unfold ProcessRequestBody, parseOpenAIChatCompletionBody, routedHeaders in *.
  rewrite Hjson. run. rewrite Hroute.
  destruct (errors_Is_ErrNoMatchingRule err); simpl;
    rewrite <- app_assoc; repeat split; try reflexivity; discriminate.
Qed.

(** *** Request-completion events of a whole exchange *)

Lemma ProcessRequestBody_completions (rawBody : HttpBody)
    (c : chatCompletionProcessor) :
  (∀ lbRef lb, dynamicLoadBalancers (config c) !! lbRef = Some lb →
               keepsCompletions lb) →
  completions (metrics (ProcessRequestBody rawBody c).2)
  = completions (metrics c)
    ++ match (ProcessRequestBody rawBody c).1 with
       | Return (Ok resp) =>
           match Response resp with
           | ProcessingResponse_RequestBody _ => []
           | _ => [false]
           end
       | Return (Err _) => [false]
       | Panic _ => []
       end.
Proof.
  intros Hlbs. cases.
  all: rewrite ?completions_app; simpl; rewrite ?app_nil_r; try reflexivity.
  all: try match goal with
    | Hlb : dynamicLoadBalancers _ !! _ = Some ?lb,
      Hsel : SelectChatCompletionsEndpoint ?lb ?m ?s = (_, ?sink) |- _ =>
        let Hk := fresh in
        pose proof (Hlbs _ _ Hlb m s) as Hk; rewrite Hsel in Hk; simpl in Hk;
        rewrite ?Hk, ?completions_app; simpl; rewrite ?app_nil_r
    end; try reflexivity.
Qed.

Lemma ProcessResponseHeaders_completions (headers : HeaderMap)
    (c : chatCompletionProcessor) :
  completions (metrics (ProcessResponseHeaders headers c).2)
  = completions (metrics c)
    ++ match (ProcessResponseHeaders headers c).1 with
       | Return (Ok _) => []
       | _ => [false]
       end.
Proof.
  unfold ProcessResponseHeaders. run.
  destruct (String.eqb (index (headersToMap headers) "content-encoding") "");
    simpl; destruct (translator c) as [t|]; simpl.
  all: try destruct (ResponseHeaders t (headersToMap headers))
         as [[headerMutation|err] t']; simpl.
  all: rewrite ?completions_app, ?app_nil_r; reflexivity.
Qed.

(** X4.  [ProcessRequestBody] records a request-completion event exactly when
    it does not hand the request on: one failure when it returns an error or
    the immediate 404 response (the deferred recording does not fire a second
    time there), none when it returns the body response of a routed request,
    and none when it panics.  Hence a whole exchange -- request headers, a
    request body that is routed, response headers that are accepted, one
    response body -- leaves exactly one request-completion event on the sink,
    a success exactly when the body event got a reply.  The load balancers
    are handed the sink; they are taken not to record request completions
    themselves. *)
Theorem X4_one_completion_per_exchange (c : chatCompletionProcessor) :
  (∀ lbRef lb, dynamicLoadBalancers (config c) !! lbRef = Some lb →
               keepsCompletions lb) →
  (∀ rawBody,
     completions (metrics (ProcessRequestBody rawBody c).2)
     = completions (metrics c)
       ++ match (ProcessRequestBody rawBody c).1 with
          | Return (Ok resp) =>
              match Response resp with
              | ProcessingResponse_RequestBody _ => []
              | _ => [false]
              end
          | Return (Err _) => [false]
          | Panic _ => []
          end)
  ∧ (∀ requestHeaders rawBody responseHeaders body,
       let call1 := ProcessRequestHeaders requestHeaders c in
       let call2 := ProcessRequestBody rawBody call1.2 in
       let call3 := ProcessResponseHeaders responseHeaders call2.2 in
       let call4 := ProcessResponseBody body call3.2 in
       isRoutedReply call2.1 = true →
       succeeded call3.1 = true →
       completions (metrics call4.2)
       = completions (metrics c) ++ [succeeded call4.1]).
Proof.
  intros Hlbs. split; [intros rawBody; apply ProcessRequestBody_completions,
                       Hlbs|].
  intros requestHeaders rawBody responseHeaders body call1 call2 call3 call4
    Hrouted Haccepted.
  unfold call4. rewrite ProcessResponseBody_completions. f_equal.
  unfold call3 in *. rewrite ProcessResponseHeaders_completions.
  destruct (ProcessResponseHeaders responseHeaders call2.2).1 as [[?|?]|?];
    try discriminate.
  rewrite app_nil_r. unfold call2 in *.
  rewrite ProcessRequestBody_completions by exact Hlbs.
  destruct (ProcessRequestBody rawBody call1.2).1 as [[resp|?]|?];
    try discriminate.
  simpl in Hrouted. destruct (Response resp); try discriminate.
  rewrite app_nil_r. unfold call1, ProcessRequestHeaders. run.
  rewrite completions_app, app_nil_r. reflexivity.
Qed.

(** *** The request-body event: the translator *)

(** X5.  A translator that is already bound (by an earlier request-body event
    or by injection) is never replaced by a newly constructed one: after
    [ProcessRequestBody] the processor holds that translator, as it was or
    as its [RequestBody] call left it.  With a bound translator the schema of
    the backend is not consulted, so the call never fails with "failed to
    select translator". *)
Theorem X5_bound_translator_is_kept (rawBody : HttpBody)
    (c : chatCompletionProcessor) (t : OpenAIChatCompletionTranslator) :
  translator c = Some t →
  let call := ProcessRequestBody rawBody c in
  (translator call.2 = Some t
   ∨ ∃ body, json_Unmarshal (Body rawBody) = Ok body
             ∧ translator call.2 = Some (RequestBody t body).2)
  ∧ ∀ err, call.1
           ≠ Return (Err (Errorf_w "failed to select translator: " err)).
Proof.
  intros Ht. cases.
  all: split; [|intros err' Herr; try discriminate].
  all: try (left; assumption).
  all: try (right; eexists; split; [reflexivity|];
            match goal with
            | Hrb : RequestBody _ _ = _ |- _ => rewrite Hrb; reflexivity
            end).
  all: try (injection Herr as Hmsg _; discriminate).
Qed.

(** X6.  With no translator bound, a request routed to a backend without
    dynamic load balancing gets its translator from the name of the
    backend's schema: the OpenAI, the AWS Bedrock or the Azure OpenAI
    translator, the last one built with the schema's version (the version is
    ignored for the other two); the processor then holds it as its
    [RequestBody] call left it.  For any other schema name the call returns
    "failed to select translator: unsupported API schema: backend={<name>
    <version>}", the translator stays unbound, the stream flag is untouched
    and the sink has the model, the backend and one request-completion
    failure. *)
Theorem X6_translator_follows_backend_schema (rawBody : HttpBody)
    (c : chatCompletionProcessor) (body : ChatCompletionRequest)
    (b : Backend) :
  translator c = None →
  json_Unmarshal (Body rawBody) = Ok body →
  Calculate (router (config c)) (routedHeaders c body) = Ok b →
  DynamicLoadBalancing b = None →
  let call := ProcessRequestBody rawBody c in
  match Name (Schema b) with
  | APISchemaOpenAI =>
      translator call.2
      = Some (RequestBody NewChatCompletionOpenAIToOpenAITranslator body).2
  | APISchemaAWSBedrock =>
      translator call.2
      = Some (RequestBody NewChatCompletionOpenAIToAWSBedrockTranslator body).2
  | APISchemaAzureOpenAI =>
      translator call.2
      = Some (RequestBody
                (NewChatCompletionOpenAIToAzureOpenAITranslator
                   (Version (Schema b))) body).2
  | APISchemaOther name =>
      call.1
      = Return (Err (Errorf_w "failed to select translator: "
                       (errorString
                          ("unsupported API schema: backend={" +:+ name
                           +:+ " " +:+ Version (Schema b) +:+ "}"))))
      ∧ translator call.2 = None
      ∧ stream call.2 = stream c
      ∧ metrics call.2
        = metrics c ++ [SetModel (Model body); SetBackend b;
                        RecordRequestCompletion false]
  end.
Proof.
  intros Ht Hjson Hroute Hlb.
  unfold ProcessRequestBody, parseOpenAIChatCompletionBody, selectTranslator,
    routedHeaders, VersionedAPISchema_string in *.
  rewrite Hjson. run. rewrite Hroute. simpl. rewrite Hlb. simpl.
  rewrite Ht. simpl.
  destruct (Name (Schema b)); simpl.
  4: { rewrite <- !app_assoc. repeat split; try reflexivity. exact Ht. }
  all: repeat (case_match; simplify_eq/=; run); reflexivity.
Qed.

(** *** The request-body event: once the endpoint is known *)

Lemma selectTranslator_selected (out : VersionedAPISchema)
    (c c0 : chatCompletionProcessor) (t0 : OpenAIChatCompletionTranslator) :
  translator (selectTranslator out c).2 = Some t0 →
  translator c0 = translator c →
  selectTranslator out c0 = (Return (Ok tt), set_translator (Some t0) c0).
Proof.
  intros Hselect Hc0. unfold selectTranslator in *. run. rewrite Hc0.
  destruct (translator c) as [t|] eqn:Ht; simpl in *.
  - assert (t = t0) as -> by congruence.
    destruct c0; simpl in *. rewrite Hc0. reflexivity.
  - destruct (Name out); simpl in *; try congruence;
      injection Hselect as <-; reflexivity.
Qed.

(** X7.  When no auth handler is registered under the name of the endpoint
    the request is sent to (for a backend with dynamic load balancing, the
    endpoint its load balancer selected, not the backend the router chose),
    the reply is exactly: the translator's body mutation, and a header
    mutation that removes what the translator removes and sets, in this
    order, the translator's headers, the model-name header, the
    selected-backend header and the load balancer's headers.  The processor
    then holds the translator as the call left it, the stream flag of the
    request and the load-balancing reference of the router's backend; the
    sink has received the endpoint as the backend. *)
Theorem X7_routed_reply_without_auth_handler (rawBody : HttpBody)
    (c : chatCompletionProcessor) (body : ChatCompletionRequest)
    (b b' : Backend) (headers : list HeaderValueOption)
    (sink : list MetricCall)
    (t0 t1 : OpenAIChatCompletionTranslator)
    (headerMutation : option HeaderMutation)
    (bodyMutation : option BodyMutation) :
  json_Unmarshal (Body rawBody) = Ok body →
  Calculate (router (config c)) (routedHeaders c body) = Ok b →
  selectsEndpoint c body b b' headers sink →
  translator (selectTranslator (Schema b') c).2 = Some t0 →
  RequestBody t0 body = (Ok (headerMutation, bodyMutation), t1) →
  backendAuthHandlers (config c) !! Backend_Name b' = None →
  let call := ProcessRequestBody rawBody c in
  call.1
  = Return (Ok (routedReply (withRequestHeaders headerMutation c body b headers)
                  bodyMutation))
  ∧ translator call.2 = Some t1
  ∧ stream call.2 = Stream body
  ∧ dynamicLB call.2 = DynamicLoadBalancing b
  ∧ metrics call.2 = sink ++ [SetBackend b'].
Proof.
  intros Hjson Hroute Hendpoint Hselect Hrequest Hnone.
  to_endpoint Hjson Hroute Hendpoint.
  all: select_translator selectTranslator_selected Hselect.
  all: rewrite Hrequest; simpl; rewrite Hnone; simpl.
  all: rewrite <- ?app_assoc, ?app_nil_r; repeat split; reflexivity.
Qed.

(** X8.  When the load balancer of the router's backend fails to select an
    endpoint, the call returns "failed to select endpoint: ..." before any
    translator is selected: the translator and the stream flag are
    untouched, the processor keeps the load-balancing reference, and the sink
    is what the load balancer left followed by one request-completion
    failure (no backend is recorded). *)
Theorem X8_endpoint_selection_error (rawBody : HttpBody)
    (c : chatCompletionProcessor) (body : ChatCompletionRequest) (b : Backend)
    (lbRef : positive) (lb : DynamicLoadBalancer) (err : error)
    (sink : list MetricCall) :
  json_Unmarshal (Body rawBody) = Ok body →
  Calculate (router (config c)) (routedHeaders c body) = Ok b →
  DynamicLoadBalancing b = Some lbRef →
  dynamicLoadBalancers (config c) !! lbRef = Some lb →
  SelectChatCompletionsEndpoint lb (Model body)
    (metrics c ++ [SetModel (Model body)])
  = (Err err, sink) →
  let call := ProcessRequestBody rawBody c in
  call.1 = Return (Err (Errorf_w "failed to select endpoint: " err))
  ∧ translator call.2 = translator c
  ∧ stream call.2 = stream c
  ∧ dynamicLB call.2 = Some lbRef
  ∧ metrics call.2 = sink ++ [RecordRequestCompletion false].
Proof.
  intros Hjson Hroute Hlb Hlookup Hsel.
  unfold ProcessRequestBody, parseOpenAIChatCompletionBody, routedHeaders in *.
  rewrite Hjson. run. rewrite Hroute. simpl. rewrite Hlb. simpl.
  rewrite Hlookup. simpl. rewrite Hsel. simpl. repeat split; reflexivity.
Qed.

(** X9.  The auth handler registered under the endpoint's name is called with
    the request headers completed with the model and with the header
    mutation [withRequestHeaders].  When it fails, the call returns "failed to do auth
    request: ..."; the stream flag is not set, the translator stays as its
    [RequestBody] call left it, the request headers are what the handler
    left, and the sink has the backend and then one request-completion
    failure. *)
Theorem X9_auth_handler_error (rawBody : HttpBody)
    (c : chatCompletionProcessor) (body : ChatCompletionRequest)
    (b b' : Backend) (headers : list HeaderValueOption)
    (sink : list MetricCall)
    (t0 t1 : OpenAIChatCompletionTranslator)
    (headerMutation : option HeaderMutation)
    (bodyMutation : option BodyMutation) (authHandler : Handler)
    (err : error) (after : gmap string string * HeaderMutation * BodyMutation) :
  json_Unmarshal (Body rawBody) = Ok body →
  Calculate (router (config c)) (routedHeaders c body) = Ok b →
  selectsEndpoint c body b b' headers sink →
  translator (selectTranslator (Schema b') c).2 = Some t0 →
  RequestBody t0 body = (Ok (headerMutation, bodyMutation), t1) →
  backendAuthHandlers (config c) !! Backend_Name b' = Some authHandler →
  Do authHandler (routedHeaders c body)
    (withRequestHeaders headerMutation c body b headers) bodyMutation
  = (Err err, after) →
  let call := ProcessRequestBody rawBody c in
  call.1 = Return (Err (Errorf_w "failed to do auth request: " err))
  ∧ stream call.2 = stream c
  ∧ translator call.2 = Some t1
  ∧ requestHeaders call.2 = after.1.1
  ∧ metrics call.2 = sink ++ [SetBackend b'; RecordRequestCompletion false].
Proof.
  intros Hjson Hroute Hendpoint Hselect Hrequest Hauth HDo.
  to_endpoint Hjson Hroute Hendpoint.
  all: select_translator selectTranslator_selected Hselect.
  all: rewrite Hrequest; simpl; rewrite Hauth; simpl.
  all: rewrite Hlb in HDo.
  all: rewrite <- ?app_assoc, ?app_nil_r in *; simpl in *.
  all: rewrite HDo; destruct after as [[? ?] ?]; simpl.
  all: rewrite <- ?app_assoc; repeat split; reflexivity.
Qed.

(** X10.  When the translator fails on the request body, the call returns
    "failed to transform request: ..." without calling any auth handler: the
    stream flag is not set, the processor keeps the translator as the failed
    call left it, the request headers are the original ones completed with
    the model, and the sink has the backend and then one request-completion
    failure. *)
Theorem X10_request_translation_error (rawBody : HttpBody)
    (c : chatCompletionProcessor) (body : ChatCompletionRequest)
    (b b' : Backend) (headers : list HeaderValueOption)
    (sink : list MetricCall)
    (t0 t1 : OpenAIChatCompletionTranslator) (err : error) :
  json_Unmarshal (Body rawBody) = Ok body →
  Calculate (router (config c)) (routedHeaders c body) = Ok b →
  selectsEndpoint c body b b' headers sink →
  translator (selectTranslator (Schema b') c).2 = Some t0 →
  RequestBody t0 body = (Err err, t1) →
  let call := ProcessRequestBody rawBody c in
  call.1 = Return (Err (Errorf_w "failed to transform request: " err))
  ∧ stream call.2 = stream c
  ∧ translator call.2 = Some t1
  ∧ requestHeaders call.2 = routedHeaders c body
  ∧ metrics call.2 = sink ++ [SetBackend b'; RecordRequestCompletion false].
Proof.
  intros Hjson Hroute Hendpoint Hselect Hrequest.
  to_endpoint Hjson Hroute Hendpoint.
  all: select_translator selectTranslator_selected Hselect.
  all: rewrite Hrequest; simpl.
  all: rewrite <- ?app_assoc; repeat split; reflexivity.
Qed.

(** *** What the request-body event leaves in the processor *)

(** X11.  Whatever the outcome of a request-body event whose body parses, the
    processor's own request-header map gains the model under the model-name
    header key and nothing else: in particular the selected backend is only
    written to the header mutation, never to this map, so a later read of
    the selected-backend key finds what the client sent.  The auth handlers
    are handed the map by reference; they are taken to leave it as it is. *)
Theorem X11_request_headers_gain_only_the_model (rawBody : HttpBody)
    (c : chatCompletionProcessor) (body : ChatCompletionRequest) :
  (∀ name h, backendAuthHandlers (config c) !! name = Some h →
             keepsRequestHeaders h) →
  json_Unmarshal (Body rawBody) = Ok body →
  let call := ProcessRequestBody rawBody c in
  requestHeaders call.2
  = <[modelNameHeaderKey (config c) := Model body]> (requestHeaders c)
  ∧ index (requestHeaders call.2) (modelNameHeaderKey (config c)) = Model body
  ∧ ∀ k, k ≠ modelNameHeaderKey (config c) →
         index (requestHeaders call.2) k = index (requestHeaders c) k.
Proof.
  intros Hhandlers Hjson call.
  assert (requestHeaders call.2
          = <[modelNameHeaderKey (config c) := Model body]> (requestHeaders c))
    as Heq.
  { unfold call. cases; try reflexivity.
    all: match goal with
         | Hh : backendAuthHandlers _ !! _ = Some ?h,
           HDo : Do ?h ?rh ?hm ?bm = _ |- _ =>
             let Hk := fresh in
             pose proof (Hhandlers _ _ Hh rh hm bm) as Hk;
             rewrite HDo in Hk; simpl in Hk; exact Hk
         end. }
  rewrite Heq. unfold index. split; [reflexivity|]. split.
  - rewrite lookup_insert_eq. reflexivity.
  - intros k Hk. rewrite lookup_insert_ne by congruence. reflexivity.
Qed.

Lemma ProcessRequestBody_frame (rawBody : HttpBody)
    (c : chatCompletionProcessor) :
  config (ProcessRequestBody rawBody c).2 = config c
  ∧ responseHeaders (ProcessRequestBody rawBody c).2 = responseHeaders c
  ∧ responseEncoding (ProcessRequestBody rawBody c).2 = responseEncoding c
  ∧ (is_Some (translator c) →
     is_Some (translator (ProcessRequestBody rawBody c).2))
  ∧ stream (ProcessRequestBody rawBody c).2
    = match (ProcessRequestBody rawBody c).1,
            json_Unmarshal (Body rawBody) with
      | Return (Ok {| Response := ProcessingResponse_RequestBody _ |}),
        Ok body => Stream body
      | _, _ => stream c
      end.
Proof.
  cases; repeat split; try reflexivity; intros [t Ht]; try discriminate;
    eauto.
Qed.

(** X12.  The stream flag changes only when [ProcessRequestBody] returns the
    body response of a routed request, and is then the [stream] field of the
    parsed request; on an error, on the immediate 404 response and on a
    panic it keeps its value. *)
Theorem X12_stream_flag_set_only_by_routed_reply (rawBody : HttpBody)
    (c : chatCompletionProcessor) :
  stream (ProcessRequestBody rawBody c).2
  = match (ProcessRequestBody rawBody c).1, json_Unmarshal (Body rawBody) with
    | Return (Ok {| Response := ProcessingResponse_RequestBody _ |}), Ok body =>
        Stream body
    | _, _ => stream c
    end.
Proof. apply ProcessRequestBody_frame. Qed.

Lemma ProcessResponseBody_frame (body : HttpBody)
    (c : chatCompletionProcessor) :
  config (ProcessResponseBody body c).2 = config c
  ∧ requestHeaders (ProcessResponseBody body c).2 = requestHeaders c
  ∧ responseHeaders (ProcessResponseBody body c).2 = responseHeaders c
  ∧ responseEncoding (ProcessResponseBody body c).2 = responseEncoding c
  ∧ stream (ProcessResponseBody body c).2 = stream c
  ∧ dynamicLB (ProcessResponseBody body c).2 = dynamicLB c
  ∧ (is_Some (translator c) →
     is_Some (translator (ProcessResponseBody body c).2)).
Proof.
  destruct (bodyReader c body) as [br|err] eqn:Hbr.
  2: { rewrite (ProcessResponseBody_reader_error _ _ _ Hbr). simpl. tauto. }
  destruct (translator c) as [t|] eqn:Ht.
  2: { rewrite (ProcessResponseBody_no_translator _ _ _ Hbr Ht). simpl.
       repeat split; try reflexivity. intros [? ?]; discriminate. }
  destruct (ResponseBody t (responseHeaders c) br (EndOfStream body))
    as [[[[headerMutation bodyMutation] tokenUsage]|err] t'] eqn:Htr.
  2: { rewrite (ProcessResponseBody_translator_error _ _ _ _ _ _ Hbr Ht Htr).
       simpl. repeat split; eauto. }
  rewrite (ProcessResponseBody_translated _ _ _ _ _ _ _ _ Hbr Ht Htr).
  unfold metered. simpl.
  destruct (EndOfStream body && _); [destruct (evaluated _ _).2|];
    simpl; destruct (stream c) eqn:Hstream; simpl; repeat split; eauto.
Qed.

Lemma ProcessResponseHeaders_frame (headers : HeaderMap)
    (c : chatCompletionProcessor) :
  config (ProcessResponseHeaders headers c).2 = config c
  ∧ (is_Some (translator c) →
     is_Some (translator (ProcessResponseHeaders headers c).2)).
Proof.
  unfold ProcessResponseHeaders. run.
  repeat (case_match; simplify_eq/=; run); split; try reflexivity;
    intros [t Ht]; try discriminate; eauto.
Qed.

(** X13.  No operation of the processor ever replaces its configuration: the
    snapshot a stream was created with is the one it uses to the end. *)
Theorem X13_config_is_never_replaced :
  (∀ headers c, config (ProcessRequestHeaders headers c).2 = config c)
  ∧ (∀ rawBody c, config (ProcessRequestBody rawBody c).2 = config c)
  ∧ (∀ headers c, config (ProcessResponseHeaders headers c).2 = config c)
  ∧ (∀ body c, config (ProcessResponseBody body c).2 = config c).
Proof.
  split; [reflexivity|]. split; [intros; apply ProcessRequestBody_frame|].
  split; [intros; apply ProcessResponseHeaders_frame|].
  intros; apply ProcessResponseBody_frame.
Qed.

(** X14.  Once a translator is bound, it stays bound: no operation, whether
    it succeeds or fails, leaves the processor without a translator. *)
Theorem X14_translator_stays_bound :
  (∀ headers c, is_Some (translator c) →
                is_Some (translator (ProcessRequestHeaders headers c).2))
  ∧ (∀ rawBody c, is_Some (translator c) →
                  is_Some (translator (ProcessRequestBody rawBody c).2))
  ∧ (∀ headers c, is_Some (translator c) →
                  is_Some (translator (ProcessResponseHeaders headers c).2))
  ∧ (∀ body c, is_Some (translator c) →
               is_Some (translator (ProcessResponseBody body c).2)).
Proof.
  split; [intros headers c Hc; exact Hc|].
  split; [intros rawBody c; apply ProcessRequestBody_frame|].
  split; [intros headers c; apply ProcessResponseHeaders_frame|].
  intros body c; apply ProcessResponseBody_frame.
Qed.

(** *** The response-headers event *)

(** X15.  Every response-headers event replaces the response-header snapshot
    by the headers of the event.  The content encoding is only overwritten
    by a non-empty [content-encoding] header: an event without one leaves the
    encoding remembered from an earlier event in place.  The event records a
    request-completion failure exactly when it does not return a reply, and
    a translator failure is returned as "failed to transform response
    headers: ...". *)
Theorem X15_response_headers_snapshot (headers : HeaderMap)
    (c : chatCompletionProcessor) :
  let call := ProcessResponseHeaders headers c in
  responseHeaders call.2 = headersToMap headers
  ∧ responseEncoding call.2
    = (if String.eqb (index (headersToMap headers) "content-encoding") ""
       then responseEncoding c
       else index (headersToMap headers) "content-encoding")
  ∧ completions (metrics call.2)
    = completions (metrics c)
      ++ match call.1 with
         | Return (Ok _) => []
         | _ => [false]
         end
  ∧ (∀ t t' err,
       translator c = Some t →
       ResponseHeaders t (headersToMap headers) = (Err err, t') →
       call.1 = Return (Err (Errorf_w "failed to transform response headers: "
                               err))).
Proof.
  intros call. split; [|split; [|split]].
  3: apply ProcessResponseHeaders_completions.
  all: unfold call, ProcessResponseHeaders; run.
  all: destruct (String.eqb (index (headersToMap headers) "content-encoding")
                   "");
    simpl; destruct (translator c) as [t|]; simpl.
  all: try destruct (ResponseHeaders t (headersToMap headers))
         as [[headerMutation|err] t'] eqn:Htr; simpl.
  all: try reflexivity.
  all: intros t0 t0' err0 Ht0 Herr0; try discriminate.
  all: injection Ht0 as <-; rewrite Htr in Herr0; try discriminate.
  all: injection Herr0 as <- _; reflexivity.
Qed.

(** *** The response-body event *)

(** X16.  Only the content encoding [gzip] is decoded.  With any other
    remembered encoding the body is handed to the translator as it is: the
    outcome of the event is the one it has with no encoding at all. *)
Theorem X16_unknown_encoding_passes_raw (body : HttpBody)
    (c : chatCompletionProcessor) (enc : string) :
  enc ≠ "gzip" →
  (ProcessResponseBody body (set_responseEncoding enc c)).1
  = (ProcessResponseBody body (set_responseEncoding "" c)).1.
Proof.
  intros Henc. apply String.eqb_neq in Henc.
  unfold ProcessResponseBody. run. rewrite Henc. simpl.
  destruct (translator c) as [t|]; simpl; [|reflexivity].
  destruct (ResponseBody t (responseHeaders c) (bytes_NewReader (Body body))
              (EndOfStream body)) as [[[[hm bm] tu]|err] t']; simpl;
    [|reflexivity].
  destruct (stream c); simpl.
  all: destruct (EndOfStream body && _); simpl; [|reflexivity].
  all: rewrite !maybeBuildDynamicMetadata_eq; simpl.
  all: match goal with
       | |- context [evaluated ?c1 ?rcs] =>
           match goal with
           | |- context [evaluated ?c2 rcs] =>
               lazymatch c1 with
               | c2 => fail
               | _ => rewrite (evaluated_ext c1 c2 rcs eq_refl eq_refl eq_refl)
               end
           end
       end.
  all: destruct (evaluated _ _).2; [reflexivity|].
  all: destruct (evaluated _ _).1; reflexivity.
Qed.

(** X17.  After response headers that announce [content-encoding: gzip], a
    body event whose gzip header cannot be read fails with "failed to decode
    gzip: ..." before the translator is consulted: the processor is left as
    the response-headers event left it, but for one request-completion
    failure on the sink. *)
Theorem X17_gzip_header_failure (headers : HeaderMap) (body : HttpBody)
    (c : chatCompletionProcessor) (err : error) :
  index (headersToMap headers) "content-encoding" = "gzip" →
  gzip_NewReader (bytes_NewReader (Body body)) = Err err →
  let c1 := (ProcessResponseHeaders headers c).2 in
  ProcessResponseBody body c1
  = (Return (Err (Errorf_w "failed to decode gzip: " err)),
     completed false c1).
Proof.
  intros Henc Hgzip c1.
  apply ProcessResponseBody_reader_error. unfold bodyReader.
  assert (responseEncoding c1 = "gzip") as ->.
  { unfold c1, ProcessResponseHeaders. run. rewrite Henc. simpl.
    destruct (translator c) as [t|]; simpl; [|reflexivity].
    destruct (ResponseHeaders t (headersToMap headers)) as [[?|?] ?];
      reflexivity. }
  exact Hgzip.
Qed.

(** X18.  A processor without translator (no request body was seen on the
    stream) passes the response through: the response-headers event gets an
    empty headers response and binds no translator, and a body event gets an
    empty body response, with no usage recorded, nothing logged, the counters
    untouched and one request-completion success -- unless the remembered
    encoding is [gzip] and the gzip header of the body cannot be read, which
    is checked first and fails the event. *)
Theorem X18_no_translator_passes_responses_through (headers : HeaderMap)
    (body : HttpBody) (c : chatCompletionProcessor) :
  translator c = None →
  (ProcessResponseHeaders headers c).1
  = Return (Ok (mkProcessingResponse
                  (ProcessingResponse_ResponseHeaders (mkHeadersResponse None))
                  None None))
  ∧ translator (ProcessResponseHeaders headers c).2 = None
  ∧ ((ProcessResponseBody body c).1
     = Return (Ok (mkProcessingResponse (ProcessingResponse_ResponseBody None)
                     None None))
     ∨ ∃ err,
         responseEncoding c = "gzip"
         ∧ gzip_NewReader (bytes_NewReader (Body body)) = Err err
         ∧ (ProcessResponseBody body c).1
           = Return (Err (Errorf_w "failed to decode gzip: " err)))
  ∧ costs (ProcessResponseBody body c).2 = costs c
  ∧ logger (ProcessResponseBody body c).2 = logger c
  ∧ translator (ProcessResponseBody body c).2 = None
  ∧ metrics (ProcessResponseBody body c).2
    = metrics c
      ++ [RecordRequestCompletion (succeeded (ProcessResponseBody body c).1)].
Proof.
  intros Ht. split; [|split].
  - unfold ProcessResponseHeaders. run. rewrite Ht.
    destruct (String.eqb _ ""); reflexivity.
  - unfold ProcessResponseHeaders. run. rewrite Ht.
    destruct (String.eqb _ ""); exact Ht.
  - destruct (bodyReader c body) as [br|err] eqn:Hbr.
    + rewrite (ProcessResponseBody_no_translator _ _ _ Hbr Ht). simpl.
      repeat split; auto.
    + rewrite (ProcessResponseBody_reader_error _ _ _ Hbr). simpl.
      repeat split; auto. right. exists err.
      unfold bodyReader in Hbr.
      destruct (String.eqb_spec (responseEncoding c) "gzip");
        [auto|discriminate].
Qed.

(** X19.  What a body event adds to the metric sink: when the translator
    returned a token usage, that usage (the delta of this event, not the
    accumulated total), then the token latency with the output tokens of the
    delta if and only if the stream flag is set, then the request
    completion; otherwise the request completion alone. *)
Theorem X19_token_metrics_per_event (body : HttpBody)
    (c : chatCompletionProcessor) :
  metrics (ProcessResponseBody body c).2
  = metrics c
    ++ match translated c body with
       | Some (Ok (_, _, tokenUsage)) =>
           RecordTokenUsage (InputTokens tokenUsage) (OutputTokens tokenUsage)
             (TotalTokens tokenUsage)
           :: (if stream c then [RecordTokenLatency (OutputTokens tokenUsage)]
               else [])
       | _ => []
       end
    ++ [RecordRequestCompletion (succeeded (ProcessResponseBody body c).1)].
Proof.
  unfold translated.
  destruct (bodyReader c body) as [br|err] eqn:Hbr.
  2: { rewrite (ProcessResponseBody_reader_error _ _ _ Hbr).
       destruct (translator c); reflexivity. }
  destruct (translator c) as [t|] eqn:Ht.
  2: { rewrite (ProcessResponseBody_no_translator _ _ _ Hbr Ht).
       reflexivity. }
  destruct (ResponseBody t (responseHeaders c) br (EndOfStream body))
    as [[[[headerMutation bodyMutation] tokenUsage]|err] t'] eqn:Htr.
  2: { rewrite (ProcessResponseBody_translator_error _ _ _ _ _ _ Hbr Ht Htr).
       reflexivity. }
  rewrite (ProcessResponseBody_translated _ _ _ _ _ _ _ _ Hbr Ht Htr).
  unfold metered. simpl.
  destruct (EndOfStream body && _); [destruct (evaluated _ _).2|];
    simpl; destruct (stream c); simpl; rewrite <- ?app_assoc; reflexivity.
Qed.

(** X20.  When the translator fails on a response body, the event returns
    "failed to transform response: ...": the counters are not touched,
    nothing is logged, no cost is computed even on the last event, and one
    request-completion failure is recorded. *)
Theorem X20_response_translation_error (body : HttpBody)
    (c : chatCompletionProcessor) (err : error) :
  translated c body = Some (Err err) →
  (ProcessResponseBody body c).1
  = Return (Err (Errorf_w "failed to transform response: " err))
  ∧ costs (ProcessResponseBody body c).2 = costs c
  ∧ logger (ProcessResponseBody body c).2 = logger c
  ∧ completions (metrics (ProcessResponseBody body c).2)
    = completions (metrics c) ++ [false].
Proof.
  intros Htranslated.
  apply translated_Some in Htranslated as (t & br & Ht & Hbr & Htr).
  destruct (ResponseBody t (responseHeaders c) br (EndOfStream body))
    as [r t'] eqn:Hcall. simpl in Htr. subst r.
  rewrite (ProcessResponseBody_translator_error _ _ _ _ _ _ Hbr Ht Hcall).
  simpl. rewrite completions_app. repeat split; reflexivity.
Qed.

(** *** The request costs *)

Lemma requestCost_accumulated_lt (c : chatCompletionProcessor)
    (tokenUsage : LLMTokenUsage) (rc : processorConfigRequestCost) (cost : N) :
  requestCost (accumulated c tokenUsage) rc = Ok cost → cost < 2 ^ 32.
Proof.
  unfold requestCost, add32. simpl.
  destruct (Type_ rc); try destruct (EvaluateProgram _ _ _ _ _ _);
    intros [= <-]; apply uint32_of_lt.
Qed.

Lemma costFields_size (done : list (processorConfigRequestCost * N)) :
  ∀ m : gmap string Value,
    (size (costFields m done) ≤ size m + length done)%nat.
Proof.
  induction done as [|rv done IH]; intros m; simpl; [lia|].
  etransitivity; [apply IH|].
  destruct (m !! MetadataKey rv.1) eqn:Hk.
  - rewrite map_size_insert_Some by eauto. lia.
  - rewrite map_size_insert_None by exact Hk. lia.
Qed.

(** X21.  Dynamic metadata, whenever a reply carries it, has exactly one
    entry, under the configured namespace; it is a struct with at most one
    field per request-cost rule, and every field is a number that fits a
    32-bit unsigned integer (so its conversion to a double is exact). *)
Theorem X21_metadata_numbers_fit_uint32 (body : HttpBody)
    (c c' : chatCompletionProcessor) (resp : ProcessingResponse)
    (md : Struct) :
  ProcessResponseBody body c = (Return (Ok resp), c') →
  DynamicMetadata resp = Some md →
  ∃ fields,
    md = {[ metadataNamespace (config c) := StructValue fields ]}
    ∧ (size fields ≤ length (requestCosts (config c)))%nat
    ∧ ∀ k x, fields !! k = Some x → ∃ n, x = NumberValue n ∧ n ≤ 2 ^ 32 - 1.
Proof.
  intros Hcall Hmd.
  destruct (proj1 (ProcessResponseBody_attached c body md))
    as (_ & _ & hm & bm & tu & values & _ & Hall & ->); [eauto|].
  eexists. split; [reflexivity|]. split.
  - pose proof (Forall2_length _ _ _ Hall) as Hlen.
    etransitivity; [apply costFields_size|].
    rewrite map_size_empty, length_zip. lia.
  - intros k x Hk. apply costFields_lookup in Hk as [Hk|(rv & Hin & _ & ->)].
    { rewrite lookup_empty in Hk. discriminate. }
    exists rv.2. split; [reflexivity|].
    apply list_elem_of_lookup in Hin as [i Hi].
    apply lookup_zip_with_Some in Hi as (rc & cost & -> & Hrc & Hcost).
    pose proof (Forall2_lookup_lr _ _ _ _ _ _ Hall Hrc Hcost) as Hok.
    apply requestCost_accumulated_lt in Hok. simpl in *. lia.
Qed.

(** X22.  In a reply to the last body event, the cost logged for a rule of
    kind input, output or total tokens is the corresponding accumulated
    counter, the usage of this very event included (the sum modulo 2^32);
    no rule of an unknown kind is among the rules of a reply. *)
Theorem X22_token_rule_costs (c c' : chatCompletionProcessor)
    (body : HttpBody) (headerMutation : option HeaderMutation)
    (bodyMutation : option BodyMutation) (tokenUsage : LLMTokenUsage)
    (resp : ProcessingResponse) (i : nat) (rc : processorConfigRequestCost) :
  EndOfStream body = true →
  translated c body = Some (Ok (headerMutation, bodyMutation, tokenUsage)) →
  requestCosts (config c) !! i = Some rc →
  ProcessResponseBody body c = (Return (Ok resp), c') →
  ∃ cost,
    logger c' !! (length (logger c) + i)%nat
    = Some (Info_setting_request_cost_metadata (Type_ rc) cost
              (MetadataKey rc))
    ∧ match Type_ rc with
      | LLMRequestCostTypeInputToken =>
          cost = (InputTokens (costs c) + InputTokens tokenUsage) mod 2 ^ 32
      | LLMRequestCostTypeOutputToken =>
          cost = (OutputTokens (costs c) + OutputTokens tokenUsage) mod 2 ^ 32
      | LLMRequestCostTypeTotalToken =>
          cost = (TotalTokens (costs c) + TotalTokens tokenUsage) mod 2 ^ 32
      | LLMRequestCostTypeCEL => True
      | LLMRequestCostTypeOther _ => False
      end.
Proof.
  intros Heos Htranslated Hrc Hcall.
  destruct (ProcessResponseBody_final_rule _ _ _ _ _ _ _ _ _
              Heos Htranslated Hrc Hcall) as (cost & Hcost & Hlog & _).
  exists cost. split; [exact Hlog|].
  unfold requestCost in Hcost. simpl in Hcost.
  destruct (Type_ rc); try (injection Hcost as <-; reflexivity);
    [exact I|discriminate].
Qed.

(** X23.  On the last body event, when the loop over the request-cost rules
    reaches a rule whose kind is none of the four known ones, the event
    returns "failed to build dynamic metadata: unknown request cost kind:
    <kind>" instead of a reply; the usage of the event has been added to the
    counters all the same. *)
Theorem X23_unknown_cost_kind (c : chatCompletionProcessor)
    (body : HttpBody) (headerMutation : option HeaderMutation)
    (bodyMutation : option BodyMutation) (tokenUsage : LLMTokenUsage)
    (i : nat) (rc : processorConfigRequestCost) (kind : string) :
  EndOfStream body = true →
  translated c body = Some (Ok (headerMutation, bodyMutation, tokenUsage)) →
  requestCosts (config c) !! i = Some rc →
  Type_ rc = LLMRequestCostTypeOther kind →
  (∀ j rc', (j < i)%nat → requestCosts (config c) !! j = Some rc' →
            ∃ cost, requestCost (accumulated c tokenUsage) rc' = Ok cost) →
  (ProcessResponseBody body c).1
  = Return (Err (Errorf_w "failed to build dynamic metadata: "
                   (errorString ("unknown request cost kind: " +:+ kind))))
  ∧ costs (ProcessResponseBody body c).2 = costs (accumulated c tokenUsage).
Proof.
  intros Heos Htranslated Hrc Htype Hbefore.
  assert (requestCosts (config c) ≠ []) as Hrules
    by (intros Hnil; rewrite Hnil in Hrc; discriminate).
  destruct (ProcessResponseBody_final c body _ _ _ Heos Hrules Htranslated)
    as [Hout _].
  pose proof (evaluated_reached _ _ _ _ Hrc Hbefore) as Hreached.
  unfold requestCost at 1 in Hreached. rewrite Htype in Hreached.
  destruct Hreached as [Herr _]. rewrite Herr in Hout.
  split; [exact Hout|].
  rewrite ProcessResponseBody_costs, Htranslated. reflexivity.
Qed.

End Properties.

(** ** The statements on the concrete gateway *)

Import Demo.

(** The request of scenario 3: no rule matches the model. *)
Lemma C1_no_matching_rule_404_witness :
  let c := fresh (demoConfig ∅ inputAndExpression) in
  let rawBody := mkHttpBody "unknown-model" false in
  let err := ErrNoMatchingRule "no matching rule found" in
  ∃ c',
    ProcessRequestBody rawBody c
    = (Return (Ok {| Response :=
                       ProcessingResponse_ImmediateResponse
                         {| Status := {| Code := 404 |};
                            ImmediateResponse_Body := "no matching rule found"
                         |};
                     ModeOverride := None;
                     DynamicMetadata := None |}), c')
    ∧ metrics c'
      = [SetModel "unknown-model"; RecordRequestCompletion false]
    ∧ completions (metrics c') = [false].
Proof.
  intros c rawBody err.
  apply (C1_no_matching_rule_404 c rawBody ("unknown-model", false) err);
    reflexivity.
Defined.

Lemma C2_dynamic_metadata_attached_witness :
  ∃ resp c',
    ProcessResponseBody (mkHttpBody "{}" true) scenario5
    = (Return (Ok resp), c')
    ∧ DynamicMetadata resp
      = Some {[ "io.envoy.ai_gateway"
                := StructValue {[ "input" := NumberValue 10;
                                  "c" := NumberValue 23 ]} ]}.
Proof.
  apply (proj1 (C2_dynamic_metadata_attached scenario5 (mkHttpBody "{}" true)
                  _)).
  split; [reflexivity|]. split; [discriminate|].
  exists None, None, (mkLLMTokenUsage 10 3 13), [10; 23].
  split; [reflexivity|]. split; [|reflexivity].
  repeat constructor.
Defined.

Lemma C3_token_usage_sum_modulo_2_32_witness :
  ∃ call,
    responseBodyCalls twoChunks streaming !! 1%nat = Some call
    ∧ costs call.2 = mkLLMTokenUsage 15 5 20
    ∧ InputTokens
        (costs (stateBefore streaming (responseBodyCalls twoChunks streaming)
                  1))
      ≤ InputTokens (costs call.2).
Proof.
  eexists. split; [reflexivity|].
  destruct (C3_token_usage_sum_modulo_2_32 twoChunks streaming 1 _
              eq_refl eq_refl) as (Hcosts & Hinput & _ & _).
  split.
  - rewrite Hcosts. reflexivity.
  - apply Hinput. vm_compute. discriminate.
Defined.

(** Both calls return a reply; the accumulated input count goes from
    4294967295 to 0 while the deltas add up to 4294967296. *)
Lemma C3_counterexample :
  let calls := responseBodyCalls twoChunks overflowing in
  let deltas := responseBodyDeltas twoChunks overflowing in
  (λ call, succeeded call.1) <$> calls = [true; true]
  ∧ (λ call, InputTokens (costs call.2)) <$> calls = [4294967295; 0]
  ∧ sumN (InputTokens <$> deltas) = 4294967296
  ∧ ¬ (∀ n call,
         calls !! n = Some call → succeeded call.1 = true →
         InputTokens (costs (stateBefore overflowing calls n))
         ≤ InputTokens (costs call.2)
         ∧ InputTokens (costs call.2)
           = sumN (InputTokens <$> take (S n) deltas)).
Proof.
  intros calls deltas.
  split; [reflexivity|]. split; [reflexivity|]. split; [reflexivity|].
  intros Hstated.
  destruct (Hstated 1%nat _ eq_refl eq_refl) as [_ Hsum].
  vm_compute in Hsum. discriminate.
Qed.

Lemma C4_counterexample :
  let call := ProcessResponseBody (mkHttpBody "{}" true) withFailingRule in
  call.1
  = Return (Err (Errorf_w "failed to build dynamic metadata: "
                   (Errorf_w "failed to evaluate CEL expression: "
                      (errorString "no such overload"))))
  ∧ ¬ (∃ resp, call.1 = Return (Ok resp))
  ∧ completions (metrics call.2) = [false].
Proof.
  intros call. split; [reflexivity|]. split; [|reflexivity].
  intros [resp Hresp]. vm_compute in Hresp. discriminate.
Qed.

Lemma C4_expression_failure_is_returned_witness :
  let call := ProcessResponseBody (mkHttpBody "{}" true) withFailingRule in
  call.1
  = Return (Err (Errorf_w "failed to build dynamic metadata: "
                   (Errorf_w "failed to evaluate CEL expression: "
                      (errorString "no such overload"))))
  ∧ (∃ records, logger call.2 = logger withFailingRule ++ records
                ∧ length records = 1%nat)
  ∧ completions (metrics call.2)
    = completions (metrics withFailingRule) ++ [false].
Proof.
  apply (C4_expression_failure_is_returned withFailingRule
           (mkHttpBody "{}" true) None None (mkLLMTokenUsage 10 3 13) 1
           (mkProcessorConfigRequestCost "c" LLMRequestCostTypeCEL failing));
    try reflexivity.
  intros [|j] rc' Hj; [|lia].
  intros [= <-]. eexists. reflexivity.
Defined.

(** The expression yields 4294967309, above the 32-bit maximum; the number
    written under the rule's key is 13, not 4294967295. *)
Lemma C5_counterexample :
  EvaluateProgram shiftedTotal "" "" 10 3 13 = Ok 4294967309
  ∧ MaxUint32 < 4294967309
  ∧ ∃ resp (fields : gmap string Value),
      (ProcessResponseBody (mkHttpBody "{}" true) withLargeCost).1
      = Return (Ok resp)
      ∧ DynamicMetadata resp
        = Some {[ "io.envoy.ai_gateway" := StructValue fields ]}
      ∧ fields !! "c" = Some (NumberValue 13)
      ∧ fields !! "c" ≠ Some (NumberValue MaxUint32).
Proof.
  split; [reflexivity|]. split; [reflexivity|].
  evaluate (ProcessResponseBody (mkHttpBody "{}" true) withLargeCost).1
    as Hcall.
  rewrite Hcall. eexists. exists {[ "c" := NumberValue 13 ]}.
  split; [reflexivity|]. split; [vm_compute; reflexivity|].
  split; [reflexivity|]. intros Hclamped. vm_compute in Hclamped.
  discriminate.
Qed.

Lemma C5_expression_cost_modulo_2_32_witness :
  let call := ProcessResponseBody (mkHttpBody "{}" true) withLargeCost in
  ∃ resp,
    call.1 = Return (Ok resp)
    ∧ logger call.2 !! 0%nat
      = Some (Info_setting_request_cost_metadata LLMRequestCostTypeCEL
                (4294967309 mod 2 ^ 32) "c")
    ∧ ∃ fields,
        DynamicMetadata resp
        = Some {[ "io.envoy.ai_gateway" := StructValue fields ]}
        ∧ fields !! "c" = Some (NumberValue (4294967309 mod 2 ^ 32)).
Proof.
  intros call. eexists. split; [reflexivity|].
  destruct (C5_expression_cost_modulo_2_32 withLargeCost call.2
              (mkHttpBody "{}" true) None None (mkLLMTokenUsage 10 3 13)
              _ 0
              (mkProcessorConfigRequestCost "c" LLMRequestCostTypeCEL
                 shiftedTotal)
              4294967309 eq_refl eq_refl eq_refl eq_refl eq_refl eq_refl)
    as [Hlog Hmd].
  split; [exact Hlog|].
  apply Hmd. intros [|[|j]] rc' Hj; try lia; discriminate.
Defined.

Lemma apiKeyHandler_extends : extendsSetHeaders apiKeyHandler.
Proof. intros requestHeaders headerMutation bodyMutation. simpl. set_solver. Qed.

Lemma demoConfig_handlers_extend (lbs : gmap positive DynamicLoadBalancer)
    (rcs : list processorConfigRequestCost) (name : string) (h : Handler) :
  backendAuthHandlers (demoConfig lbs rcs) !! name = Some h →
  extendsSetHeaders h.
Proof.
  simpl. intros Hh. apply lookup_singleton_Some in Hh as [_ <-].
  apply apiKeyHandler_extends.
Qed.

(** Scenario 1: the request is routed to [openai], whose auth handler adds
    the API key. *)
Lemma C6_routed_request_sets_headers_witness :
  let c := fresh (demoConfig ∅ []) in
  let rawBody := mkHttpBody "gpt-4o-mini" false in
  ∃ headerMutation bodyMutation,
    (ProcessRequestBody rawBody c).1
    = Return
        (Ok {| Response :=
                 ProcessingResponse_RequestBody
                   {| BodyResponse_Response :=
                        Some {| HeaderMutation_ := Some headerMutation;
                                BodyMutation_ := bodyMutation;
                                ClearRouteCache := true |} |};
               ModeOverride := None;
               DynamicMetadata := None |})
    ∧ {| Header := {| Key := "x-ai-eg-model"; RawValue := "gpt-4o-mini" |} |}
      ∈ SetHeaders headerMutation
    ∧ {| Header := {| Key := "x-ai-eg-selected-backend";
                      RawValue := "openai" |} |}
      ∈ SetHeaders headerMutation.
Proof.
  intros c rawBody.
  evaluate (ProcessRequestBody rawBody c) as Hcall.
  assert (Calculate (router (config c))
            (<[modelNameHeaderKey (config c) := "gpt-4o-mini"]>
               (requestHeaders c))
          = Ok openaiBackend) as Hroute by (vm_compute; reflexivity).
  destruct (C6_routed_request_sets_headers rawBody c _ ("gpt-4o-mini", false)
              openaiBackend _ eq_refl Hroute
              (demoConfig_handlers_extend ∅ []) Hcall)
    as (headerMutation & bodyMutation & Hresp & Hmodel & Hbackend).
  exists headerMutation, bodyMutation.
  split; [|split; [exact Hmodel|exact Hbackend]].
  rewrite Hcall, <- Hresp. reflexivity.
Defined.

(** The same request on a backend with dynamic load balancing: the header
    carries the literal, and the load balancer's header follows. *)
Example routed_to_pool :
  (ProcessRequestBody (mkHttpBody "pooled" false)
     (fresh (demoConfig {[ 1%positive := poolBalancer ]} []))).1
  = Return
      (Ok (routedReply
             {| SetHeaders :=
                  [ {| Header := {| Key := "x-ai-eg-model";
                                    RawValue := "pooled" |} |};
                    {| Header := {| Key := "x-ai-eg-selected-backend";
                                    RawValue := "original_destination_cluster"
                                 |} |};
                    {| Header := {| Key := "x-ai-eg-original-dst";
                                    RawValue := "10.0.0.1:8080" |} |} ];
                RemoveHeaders := [] |}
             None)).
Proof. vm_compute. reflexivity. Qed.

Lemma C7_streamed_mode_override_witness :
  stream afterStreamingRequest = true
  ∧ ∃ reply,
      (ProcessResponseHeaders status200 afterStreamingRequest).1
      = Return (Ok reply)
      ∧ ModeOverride reply
        = Some {| ResponseBodyMode := ProcessingMode_STREAMED |}.
Proof.
  destruct C7_streamed_mode_override as [Hmode Hstream].
  evaluate (ProcessRequestBody (mkHttpBody "~llama3-70b" false)
              (fresh (demoConfig ∅ []))) as Hrequest.
  assert (Calculate (router (config (fresh (demoConfig ∅ []))))
            (<[modelNameHeaderKey (config (fresh (demoConfig ∅ [])))
               := "llama3-70b"]> (requestHeaders (fresh (demoConfig ∅ []))))
          = Ok bedrockBackend) as Hroute by (vm_compute; reflexivity).
  destruct (Hstream (mkHttpBody "~llama3-70b" false)
              (fresh (demoConfig ∅ [])) _ ("llama3-70b", true)
              bedrockBackend _ eq_refl Hroute Hrequest)
    as [Hflag [t Ht]].
  assert (stream afterStreamingRequest = true) as Hflag'
    by (unfold afterStreamingRequest; rewrite Hrequest; exact Hflag).
  split; [exact Hflag'|].
  evaluate (ProcessResponseHeaders status200 afterStreamingRequest) as Hcall.
  rewrite Hcall. eexists. split; [reflexivity|].
  eapply (Hmode afterStreamingRequest _ t status200 _).
  - unfold afterStreamingRequest. rewrite Hrequest. exact Ht.
  - exact Hcall.
  - split; [exact Hflag'|vm_compute; reflexivity].
Defined.




Lemma C10_completion_recorded_per_body_event_witness :
  let calls := responseBodyCalls twoChunks streaming in
  length calls = 2%nat
  ∧ completions (metrics (stateBefore streaming calls 2)) = [true; true].
Proof.
  intros calls.
  destruct (proj2 (proj2 C10_completion_recorded_per_body_event)
              twoChunks streaming) as [Hlen Hcompletions].
  - repeat constructor.
  - split; [exact Hlen|exact Hcompletions].
Defined.

(** ** The further properties on the concrete gateway *)

(** The empty body does not parse. *)
Lemma X2_unparsable_body_only_records_failure_witness :
  let c := fresh (demoConfig ∅ inputAndExpression) in
  ProcessRequestBody (mkHttpBody "" false) c
  = (Return (Err (Errorf_w "failed to parse request body: "
                    (Errorf_w "failed to unmarshal body: "
                       (errorString "unexpected end of JSON input")))),
     completed false c).
Proof.
  intros c.
  apply (X2_unparsable_body_only_records_failure (mkHttpBody "" false) c).
  reflexivity.
Defined.

(** A router whose rules cannot be evaluated. *)
Lemma X3_router_error_selects_nothing_witness :
  let call :=
    ProcessRequestBody (mkHttpBody "gpt-4o-mini" false)
      (fresh (configWith brokenRouter ∅ ∅ [])) in
  call.1 = Return (Err (Errorf_w "failed to calculate route: "
                          (errorString "invalid rule program")))
  ∧ translator call.2 = None
  ∧ metrics call.2
    = [SetModel "gpt-4o-mini"; RecordRequestCompletion false].
Proof.
  intros call.
  destruct (X3_router_error_selects_nothing (mkHttpBody "gpt-4o-mini" false)
              (fresh (configWith brokenRouter ∅ ∅ []))
              ("gpt-4o-mini", false) (errorString "invalid rule program")
              eq_refl eq_refl)
    as (Hout & Ht & _ & _ & _ & Hmetrics & _).
  split; [apply Hout; reflexivity|]. split; [exact Ht|exact Hmetrics].
Defined.

(** Scenario 1 on a pooled backend, from the request headers to the only
    response body: one request completion, a success. *)
Lemma X4_one_completion_per_exchange_witness :
  let c := fresh (demoConfig {[ 1%positive := poolBalancer ]}
                    inputAndExpression) in
  let call1 := ProcessRequestHeaders (mkHeaderMap []) c in
  let call2 := ProcessRequestBody (mkHttpBody "pooled" false) call1.2 in
  let call3 := ProcessResponseHeaders status200 call2.2 in
  let call4 := ProcessResponseBody (mkHttpBody "{}" true) call3.2 in
  completions (metrics call4.2) = [true].
Proof.
  intros c call1 call2 call3 call4.
  assert (∀ lbRef lb, dynamicLoadBalancers (config c) !! lbRef = Some lb →
                      keepsCompletions lb) as Hlbs.
  { intros lbRef lb Hlb. simpl in Hlb.
    apply lookup_singleton_Some in Hlb as [_ <-].
    intros model sink. reflexivity. }
  destruct (X4_one_completion_per_exchange c Hlbs) as [_ Hexchange].
  etransitivity.
  - apply (Hexchange (mkHeaderMap []) (mkHttpBody "pooled" false) status200
             (mkHttpBody "{}" true)); vm_compute; reflexivity.
  - vm_compute. reflexivity.
Defined.

(** A request for the Bedrock backend on a processor with an injected
    translator: the injected one is kept. *)
Lemma X5_bound_translator_is_kept_witness :
  let c := withTranslator [mkLLMTokenUsage 1 1 2] (fresh (demoConfig ∅ [])) in
  translator (ProcessRequestBody (mkHttpBody "llama3-70b" false) c).2
  = Some [mkLLMTokenUsage 1 1 2].
Proof.
  intros c.
  destruct (X5_bound_translator_is_kept (mkHttpBody "llama3-70b" false) c
              [mkLLMTokenUsage 1 1 2] eq_refl)
    as [[Hkept|(body & _ & Hkept)] _]; exact Hkept.
Defined.

Lemma X6_translator_follows_backend_schema_witness :
  let call :=
    ProcessRequestBody (mkHttpBody "claude" false)
      (fresh (configWith (constRouter unsupportedBackend) ∅ ∅ [])) in
  call.1
  = Return (Err (Errorf_w "failed to select translator: "
                   (errorString
                      "unsupported API schema: backend={Anthropic v1}")))
  ∧ translator call.2 = None
  ∧ stream call.2 = false
  ∧ metrics call.2
    = [SetModel "claude"; SetBackend unsupportedBackend;
       RecordRequestCompletion false].
Proof.
  exact (X6_translator_follows_backend_schema (mkHttpBody "claude" false)
           (fresh (configWith (constRouter unsupportedBackend) ∅ ∅ []))
           ("claude", false) unsupportedBackend
           eq_refl eq_refl eq_refl eq_refl).
Defined.

(** The pooled backend: the endpoint has no auth handler. *)
Lemma X7_routed_reply_without_auth_handler_witness :
  let call :=
    ProcessRequestBody (mkHttpBody "pooled" false)
      (fresh (demoConfig {[ 1%positive := poolBalancer ]} [])) in
  call.1
  = Return
      (Ok (routedReply
             {| SetHeaders :=
                  [ {| Header := {| Key := "x-ai-eg-model";
                                    RawValue := "pooled" |} |};
                    {| Header := {| Key := "x-ai-eg-selected-backend";
                                    RawValue := "original_destination_cluster"
                                 |} |};
                    {| Header := {| Key := "x-ai-eg-original-dst";
                                    RawValue := "10.0.0.1:8080" |} |} ];
                RemoveHeaders := [] |}
             None))
  ∧ translator call.2 = Some [mkLLMTokenUsage 10 3 13]
  ∧ stream call.2 = false
  ∧ dynamicLB call.2 = Some 1%positive
  ∧ metrics call.2
    = [SetModel "pooled";
       SetBackend (mkBackend "pool-endpoint-1"
                     (mkVersionedAPISchema APISchemaOpenAI "v1") None)].
Proof.
  intros call.
  set (c := fresh (demoConfig {[ 1%positive := poolBalancer ]} [])).
  assert (Calculate (router (config c)) (routedHeaders c ("pooled", false))
          = Ok dynamicBackend) as Hroute by (vm_compute; reflexivity).
  assert (backendAuthHandlers (config c) !! "pool-endpoint-1" = None)
    as Hnone by (vm_compute; reflexivity).
  refine (X7_routed_reply_without_auth_handler (mkHttpBody "pooled" false) c
            ("pooled", false) dynamicBackend
            (mkBackend "pool-endpoint-1"
               (mkVersionedAPISchema APISchemaOpenAI "v1") None)
            [mkHeaderValueOption
               (mkHeaderValue "x-ai-eg-original-dst" "10.0.0.1:8080")]
            [SetModel "pooled"]
            [mkLLMTokenUsage 10 3 13] [mkLLMTokenUsage 10 3 13] None None
            eq_refl Hroute _ eq_refl eq_refl Hnone).
  right. exists 1%positive, poolBalancer.
  split; [reflexivity|]. split; reflexivity.
Defined.

(** The pooled backend when the load balancer has no endpoint. *)
Lemma X8_endpoint_selection_error_witness :
  let call :=
    ProcessRequestBody (mkHttpBody "pooled" false)
      (fresh (demoConfig {[ 1%positive := failingBalancer ]} [])) in
  call.1 = Return (Err (Errorf_w "failed to select endpoint: "
                          (errorString "no endpoint available")))
  ∧ translator call.2 = None
  ∧ stream call.2 = false
  ∧ dynamicLB call.2 = Some 1%positive
  ∧ metrics call.2 = [SetModel "pooled"; RecordRequestCompletion false].
Proof.
  intros call.
  set (c := fresh (demoConfig {[ 1%positive := failingBalancer ]} [])).
  assert (Calculate (router (config c)) (routedHeaders c ("pooled", false))
          = Ok dynamicBackend) as Hroute by (vm_compute; reflexivity).
  exact (X8_endpoint_selection_error (mkHttpBody "pooled" false) c
           ("pooled", false) dynamicBackend 1%positive failingBalancer
           (errorString "no endpoint available") [SetModel "pooled"]
           eq_refl Hroute eq_refl eq_refl eq_refl).
Defined.

(** Scenario 1 with an auth handler whose credentials have expired. *)
Lemma X9_auth_handler_error_witness :
  let call :=
    ProcessRequestBody (mkHttpBody "gpt-4o-mini" false)
      (fresh (configWith demoRouter {[ "openai" := expiredHandler ]} ∅ [])) in
  call.1 = Return (Err (Errorf_w "failed to do auth request: "
                          (errorString "credentials expired")))
  ∧ stream call.2 = false
  ∧ translator call.2 = Some [mkLLMTokenUsage 10 3 13]
  ∧ metrics call.2
    = [SetModel "gpt-4o-mini"; SetBackend openaiBackend;
       RecordRequestCompletion false].
Proof.
  intros call.
  set (c := fresh (configWith demoRouter {[ "openai" := expiredHandler ]}
                     ∅ [])).
  assert (Calculate (router (config c))
            (routedHeaders c ("gpt-4o-mini", false))
          = Ok openaiBackend) as Hroute by (vm_compute; reflexivity).
  assert (backendAuthHandlers (config c) !! "openai" = Some expiredHandler)
    as Hauth by (vm_compute; reflexivity).
  destruct (X9_auth_handler_error (mkHttpBody "gpt-4o-mini" false) c
              ("gpt-4o-mini", false) openaiBackend openaiBackend []
              [SetModel "gpt-4o-mini"]
              [mkLLMTokenUsage 10 3 13] [mkLLMTokenUsage 10 3 13] None None
              expiredHandler (errorString "credentials expired") _
              eq_refl Hroute
              (or_introl (conj eq_refl (conj eq_refl (conj eq_refl eq_refl))))
              eq_refl eq_refl Hauth eq_refl)
    as (Hout & Hstream & Ht & _ & Hmetrics).
  split; [exact Hout|]. split; [exact Hstream|].
  split; [exact Ht|exact Hmetrics].
Defined.

(** Scenario 1 with a translator that rejects the request. *)
Lemma X10_request_translation_error_witness :
  let call :=
    ProcessRequestBody (mkHttpBody "gpt-4o-mini" false)
      (Faulty.fresh (demoConfig ∅ [])) in
  call.1 = Return (Err (Errorf_w "failed to transform request: "
                          (errorString "unsupported parameter")))
  ∧ stream call.2 = false
  ∧ translator call.2 = Some 1%nat
  ∧ metrics call.2
    = [SetModel "gpt-4o-mini"; SetBackend openaiBackend;
       RecordRequestCompletion false].
Proof.
  intros call.
  set (c := Faulty.fresh (demoConfig ∅ [])).
  assert (Calculate (router (config c))
            (routedHeaders c ("gpt-4o-mini", false))
          = Ok openaiBackend) as Hroute by (vm_compute; reflexivity).
  destruct (X10_request_translation_error (mkHttpBody "gpt-4o-mini" false) c
              ("gpt-4o-mini", false) openaiBackend openaiBackend []
              [SetModel "gpt-4o-mini"] 0%nat 1%nat
              (errorString "unsupported parameter")
              eq_refl Hroute
              (or_introl (conj eq_refl (conj eq_refl (conj eq_refl eq_refl))))
              eq_refl eq_refl)
    as (Hout & Hstream & Ht & _ & Hmetrics).
  split; [exact Hout|]. split; [exact Hstream|].
  split; [exact Ht|exact Hmetrics].
Defined.

Lemma apiKeyHandler_keeps : keepsRequestHeaders apiKeyHandler.
Proof. intros requestHeaders headerMutation bodyMutation. reflexivity. Qed.

(** Scenario 1: the processor's map has the model, not the backend. *)
Lemma X11_request_headers_gain_only_the_model_witness :
  let call :=
    ProcessRequestBody (mkHttpBody "gpt-4o-mini" false)
      (fresh (demoConfig ∅ [])) in
  index (requestHeaders call.2) "x-ai-eg-model" = "gpt-4o-mini"
  ∧ index (requestHeaders call.2) "x-ai-eg-selected-backend" = ""
  ∧ index (requestHeaders call.2) ":path" = "/v1/chat/completions".
Proof.
  intros call.
  assert (∀ name h,
            backendAuthHandlers (config (fresh (demoConfig ∅ []))) !! name
            = Some h → keepsRequestHeaders h) as Hhandlers.
  { intros name h Hh. simpl in Hh.
    apply lookup_singleton_Some in Hh as [_ <-]. apply apiKeyHandler_keeps. }
  destruct (X11_request_headers_gain_only_the_model
              (mkHttpBody "gpt-4o-mini" false) (fresh (demoConfig ∅ []))
              ("gpt-4o-mini", false) Hhandlers eq_refl)
    as (_ & Hmodel & Hothers).
  split; [exact Hmodel|].
  split; (rewrite Hothers; [vm_compute; reflexivity|discriminate]).
Defined.

(** A translator that fails on the response body stays bound. *)
Lemma X14_translator_stays_bound_witness :
  is_Some (translator (ProcessResponseBody (mkHttpBody "{}" true)
                         (Faulty.bound (demoConfig ∅ []))).2).
Proof.
  apply (proj2 (proj2 (proj2 X14_translator_stays_bound))).
  eexists. reflexivity.
Defined.

(** Response headers that announce gzip, on a translator that rejects
    them. *)
Lemma X15_response_headers_snapshot_witness :
  let call :=
    ProcessResponseHeaders gzipHeaders (Faulty.bound (demoConfig ∅ [])) in
  responseEncoding call.2 = "gzip"
  ∧ call.1 = Return (Err (Errorf_w "failed to transform response headers: "
                            (errorString "unexpected content type")))
  ∧ completions (metrics call.2) = [false].
Proof.
  intros call. unfold call.
  destruct (X15_response_headers_snapshot gzipHeaders
              (Faulty.bound (demoConfig ∅ [])))
    as (_ & Hencoding & Hcompletions & Herror).
  pose proof (Herror 2%nat 3%nat (errorString "unexpected content type")
                eq_refl eq_refl) as Hout.
  split; [rewrite Hencoding; vm_compute; reflexivity|].
  split; [exact Hout|].
  rewrite Hcompletions, Hout. reflexivity.
Defined.

(** Brotli is not decoded. *)
Lemma X16_unknown_encoding_passes_raw_witness :
  (ProcessResponseBody (mkHttpBody "{}" true)
     (set_responseEncoding "br" scenario5)).1
  = (ProcessResponseBody (mkHttpBody "{}" true)
       (set_responseEncoding "" scenario5)).1.
Proof.
  apply (X16_unknown_encoding_passes_raw (mkHttpBody "{}" true) scenario5
           "br").
  discriminate.
Defined.

(** An empty body after gzip response headers. *)
Lemma X17_gzip_header_failure_witness :
  let c1 := (ProcessResponseHeaders gzipHeaders scenario5).2 in
  ProcessResponseBody (mkHttpBody "" true) c1
  = (Return (Err (Errorf_w "failed to decode gzip: " (errorString "EOF"))),
     completed false c1).
Proof.
  apply (X17_gzip_header_failure gzipHeaders (mkHttpBody "" true) scenario5
           (errorString "EOF")).
  - vm_compute. reflexivity.
  - reflexivity.
Defined.

(** A response on a stream that saw no request body. *)
Lemma X18_no_translator_passes_responses_through_witness :
  let call :=
    ProcessResponseBody (mkHttpBody "{}" true)
      (fresh (demoConfig ∅ inputAndExpression)) in
  call.1 = Return (Ok (mkProcessingResponse
                         (ProcessingResponse_ResponseBody None) None None))
  ∧ metrics call.2 = [RecordRequestCompletion true].
Proof.
  intros call. unfold call.
  destruct (X18_no_translator_passes_responses_through status200
              (mkHttpBody "{}" true)
              (fresh (demoConfig ∅ inputAndExpression)) eq_refl)
    as (_ & _ & [Hout|(err & Hencoding & _)] & _ & _ & _ & Hmetrics).
  - split; [exact Hout|]. rewrite Hmetrics, Hout. reflexivity.
  - discriminate Hencoding.
Defined.

(** A translator that rejects the response body. *)
Lemma X20_response_translation_error_witness :
  let call :=
    ProcessResponseBody (mkHttpBody "{}" true)
      (Faulty.bound (demoConfig ∅ inputAndExpression)) in
  call.1 = Return (Err (Errorf_w "failed to transform response: "
                          (errorString "invalid chunk")))
  ∧ costs call.2 = mkLLMTokenUsage 0 0 0
  ∧ logger call.2 = []
  ∧ completions (metrics call.2) = [false].
Proof.
  apply (X20_response_translation_error (mkHttpBody "{}" true)
           (Faulty.bound (demoConfig ∅ inputAndExpression))
           (errorString "invalid chunk")).
  reflexivity.
Defined.

(** Scenario 5: two rules, two numbers. *)
Lemma X21_metadata_numbers_fit_uint32_witness :
  let call := ProcessResponseBody (mkHttpBody "{}" true) scenario5 in
  ∃ resp fields,
    call.1 = Return (Ok resp)
    ∧ DynamicMetadata resp
      = Some {[ "io.envoy.ai_gateway" := StructValue fields ]}
    ∧ (size fields ≤ 2)%nat
    ∧ ∀ k x, fields !! k = Some x → ∃ n, x = NumberValue n ∧ n ≤ 4294967295.
Proof.
  intros call.
  edestruct (X21_metadata_numbers_fit_uint32 (mkHttpBody "{}" true) scenario5
               call.2 _ _ eq_refl eq_refl)
    as (fields & Hmd & Hsize & Hfields).
  eexists _, fields. split; [reflexivity|].
  split; [exact (f_equal Some Hmd)|]. split; [exact Hsize|exact Hfields].
Defined.

(** Scenario 5: the input rule logs the 10 input tokens of the event. *)
Lemma X22_token_rule_costs_witness :
  let call := ProcessResponseBody (mkHttpBody "{}" true) scenario5 in
  logger call.2 !! 0%nat
  = Some (Info_setting_request_cost_metadata LLMRequestCostTypeInputToken 10
            "input").
Proof.
  intros call.
  destruct (X22_token_rule_costs scenario5 call.2 (mkHttpBody "{}" true)
              None None (mkLLMTokenUsage 10 3 13) _ 0
              (mkProcessorConfigRequestCost "input"
                 LLMRequestCostTypeInputToken noProgram)
              eq_refl eq_refl eq_refl eq_refl)
    as (cost & Hlog & Hcost).
  simpl in Hcost. subst cost. exact Hlog.
Defined.

Lemma X23_unknown_cost_kind_witness :
  let call := ProcessResponseBody (mkHttpBody "{}" true) withUnknownKind in
  call.1
  = Return (Err (Errorf_w "failed to build dynamic metadata: "
                   (errorString "unknown request cost kind: Bogus")))
  ∧ costs call.2 = mkLLMTokenUsage 10 3 13.
Proof.
  apply (X23_unknown_cost_kind withUnknownKind (mkHttpBody "{}" true)
           None None (mkLLMTokenUsage 10 3 13) 1
           (mkProcessorConfigRequestCost "x" (LLMRequestCostTypeOther "Bogus")
              noProgram)
           "Bogus"); try reflexivity.
  intros [|j] rc' Hj; [|lia].
  intros [= <-]. eexists. reflexivity.
Defined.
